(** * Streamlit_MLOPs / sentiment-analyzer: the text analytics pipeline

    A shallow embedding of [sentiment-analyzer/app.py]: the text cleaner
    [clean_text], the lexical statistics and part-of-speech histogram of
    [analyze_text_details], the sentiment scorer [get_sentiment], and the
    part of [main] that assembles a history entry and appends it to the
    session history.

    Python values are modelled as follows.
    - A [str] is the list of its Unicode code points ([pystr]).
    - A [float] is an IEEE 754 value of the Standard Library's [spec_float];
      the literal [0] of the fallback branch of [get_sentiment] is a Python
      [int], so a number is either an [int] or a [float] ([pynum]).
    - [TextBlob] is an external collaborator: its two entry points are
      parameters of the development, each returning a value or raising an
      [Exception]; every call is recorded in a trace.
    - [try ... except Exception] is the handler [try_except] of a small
      trace-and-exception monad. *)

From Stdlib Require Import String Ascii.
From Stdlib Require Import List Bool Arith ZArith NArith Lia.
From Stdlib Require Import SpecFloat.
Import ListNotations.

Set Implicit Arguments.

(** ** Python strings *)

Module PyStr.

(** A code point, and a string as the sequence of its code points:
    [len], slicing and iteration of a Python [str] all count code points. *)
Definition char := N.
Definition pystr := list char.

(** Readable literals: a Rocq string read as Latin-1 code points. *)
Fixpoint str (s : string) : pystr :=
  match s with
  | EmptyString => []
  | String a s' => N_of_ascii a :: str s'
  end.

Definition str_eqb (a b : pystr) : bool :=
  if list_eq_dec N.eq_dec a b then true else false.

(** [bool(s)] for a string: non-empty. *)
Definition truthy (s : pystr) : bool :=
  match s with [] => false | _ :: _ => true end.

Definition between (lo hi c : N) : bool := ((lo <=? c) && (c <=? hi))%N.

(** [str.isspace] on one code point, the predicate behind [str.strip()],
    [str.split()] and the regular expression class [\s] on [str] patterns
    (CPython's [_PyUnicode_IsWhitespace]). *)
Definition isspace (c : char) : bool :=
  between 9 13 c || between 28 32 c
  || (c =? 133)%N || (c =? 160)%N || (c =? 5760)%N
  || between 8192 8202 c || (c =? 8232)%N || (c =? 8233)%N
  || (c =? 8239)%N || (c =? 8287)%N || (c =? 12288)%N.

(** The class [a-zA-Z]. *)
Definition is_upper (c : char) : bool := between 65 90 c.
Definition is_lower (c : char) : bool := between 97 122 c.
Definition is_ascii_letter (c : char) : bool := is_lower c || is_upper c.

(** The characters the pattern [[^a-zA-Z\s]] does NOT match. *)
Definition kept (c : char) : bool := is_ascii_letter c || isspace c.

(** [re.sub(r'[^a-zA-Z\s]', '', text)]: every match is one character and
    is replaced by the empty string. *)
Definition re_sub_non_letters (text : pystr) : pystr := filter kept text.

(** [str.lower()] on one code point of the strings that reach it in
    [clean_text] (ASCII letters and whitespace): capitals move by 32,
    everything else is unchanged. *)
Definition lower_char (c : char) : char :=
  if is_upper c then (c + 32)%N else c.

Definition lower (text : pystr) : pystr := map lower_char text.

(** [str.strip()]: leading and trailing whitespace removed. *)
Fixpoint lstrip (s : pystr) : pystr :=
  match s with
  | [] => []
  | c :: s' => if isspace c then lstrip s' else s
  end.

Definition strip (s : pystr) : pystr := rev (lstrip (rev (lstrip s))).

(** A string that holds a character other than whitespace. *)
Definition nonblank (s : pystr) : bool :=
  existsb (fun c => negb (isspace c)) s.

(** [str.split()] without argument: the maximal runs of non-whitespace
    characters, in order; [cur] is the run being read, reversed. *)
Fixpoint split_from (cur : pystr) (s : pystr) : list pystr :=
  match s with
  | [] => match cur with [] => [] | _ :: _ => [rev cur] end
  | c :: s' =>
      if isspace c
      then match cur with
           | [] => split_from [] s'
           | _ :: _ => rev cur :: split_from [] s'
           end
      else split_from (c :: cur) s'
  end.

Definition split (s : pystr) : list pystr := split_from [] s.

(** The class [[.!?]]. *)
Definition is_terminator (c : char) : bool :=
  (c =? 46)%N || (c =? 33)%N || (c =? 63)%N.

(** [re.split('[.!?]+', text)]: the pieces between maximal runs of
    terminators, empty pieces at either end included. [in_run] says that
    the previous character was a terminator (then [cur] is empty). *)
Fixpoint re_split_from (in_run : bool) (cur : pystr) (s : pystr)
  : list pystr :=
  match s with
  | [] => [rev cur]
  | c :: s' =>
      if is_terminator c
      then if in_run
           then re_split_from true [] s'
           else rev cur :: re_split_from true [] s'
      else re_split_from false (c :: cur) s'
  end.

Definition re_split_terminators (s : pystr) : list pystr :=
  re_split_from false [] s.

End PyStr.
Import PyStr.

(** ** The text cleaner (app.py, lines 14-19) *)

Definition clean_text (text : pystr) : pystr :=
  let text := re_sub_non_letters text in
  let text := lower text in
  text.

(** ** Python numbers *)

Module PyNum.

(** The polarity of a result is the [float] the toolkit returns, or the
    [int] literal [0] of the fallback branch. *)
Inductive pynum :=
  | PyInt (z : Z)
  | PyFloat (f : spec_float).

Definition float_zero : spec_float := S754_zero false.

(** The binary64 value of the literal [0.5]. *)
Definition float_half : spec_float :=
  Eval cbv in SFldexp 53 1024 (SFone 53 1024) (-1).

Definition is_nan (x : pynum) : bool :=
  match x with
  | PyFloat S754_nan => true
  | _ => false
  end.

(** [x > 0] and [x < 0] against the [int] literal [0]: on a [float] the
    IEEE comparison with zero, false on NaN. *)
Definition gt0 (x : pynum) : bool :=
  match x with
  | PyInt z => (0 <? z)%Z
  | PyFloat f => SFltb float_zero f
  end.

Definition lt0 (x : pynum) : bool :=
  match x with
  | PyInt z => (z <? 0)%Z
  | PyFloat f => SFltb f float_zero
  end.

(** [f == z] for a [float] and an [int]: Python compares the exact
    values. *)
Definition float_eq_int (f : spec_float) (z : Z) : bool :=
  match f with
  | S754_zero _ => (z =? 0)%Z
  | S754_finite s m e =>
      let v := if s then Zneg m else Zpos m in
      if (0 <=? e)%Z
      then (z =? v * 2 ^ e)%Z
      else ((v mod 2 ^ (- e) =? 0) && (z =? v / 2 ^ (- e)))%Z
  | S754_infinity _ | S754_nan => false
  end.

(** [x == y] on numbers. *)
Definition eqb (x y : pynum) : bool :=
  match x, y with
  | PyInt a, PyInt b => (a =? b)%Z
  | PyFloat f, PyFloat g => SFeqb f g
  | PyInt a, PyFloat g => float_eq_int g a
  | PyFloat f, PyInt b => float_eq_int f b
  end.

(** [x == 0]. *)
Definition eq0 (x : pynum) : bool := eqb x (PyInt 0).

End PyNum.
Import PyNum.

(** ** The three dictionaries of the analysis *)

(** The literals ["Positive"], ["Negative"] and ["Neutral"]. *)
Inductive category := Positive | Negative | Neutral.

Definition category_eqb (a b : category) : bool :=
  match a, b with
  | Positive, Positive | Negative, Negative | Neutral, Neutral => true
  | _, _ => false
  end.

(** The dictionary returned by [get_sentiment]. *)
Module Sentiment.
Record t := mk {
  polarity : pynum;
  subjectivity : pynum;
  category : category
}.
End Sentiment.

(** [collections.Counter] over tags: keys in order of first insertion,
    each with its number of occurrences. *)
Module Counter.

Definition t := list (pystr * nat).

Definition empty : t := [].

Fixpoint incr (key : pystr) (c : t) : t :=
  match c with
  | [] => [(key, 1)]
  | (k, n) :: c' =>
      if str_eqb k key then (k, S n) :: c' else (k, n) :: incr key c'
  end.

(** [Counter(iterable)]. *)
Definition of_list (keys : list pystr) : t :=
  fold_left (fun c key => incr key c) keys empty.

End Counter.

(** The dictionary returned by [analyze_text_details]. *)
Module Details.
Record t := mk {
  word_count : nat;
  sentence_count : nat;
  pos_counts : Counter.t
}.
End Details.

(** The dictionary [current_analysis] that [main] appends to the history. *)
Module Entry.
Record t := mk {
  text : pystr;
  sentiment : category;
  polarity : pynum
}.

(** [a == b] on two such dictionaries: the same keys, and equal values
    under each key. The values compared are never the same object (each
    run of [main] builds its own), so only [==] decides. *)
Definition eqb (a b : t) : bool :=
  str_eqb (text a) (text b)
  && category_eqb (sentiment a) (sentiment b)
  && PyNum.eqb (polarity a) (polarity b).
End Entry.

(** ** Exceptions and the trace of toolkit calls *)

(** An instance of (a subclass of) [Exception]. *)
Record Exception := { exc_name : string }.

Inductive outcome (A : Type) :=
  | Return (a : A)
  | Raise (e : Exception).
Arguments Return {A} a.
Arguments Raise {A} e.

(** The two calls into TextBlob that run the toolkit. *)
Inductive call :=
  | TagsCall (text : pystr)
  | SentimentCall (text : pystr).

Definition trace := list call.

(** A computation reads the trace so far and gives an outcome and the
    extended trace. *)
Definition M (A : Type) := trace -> outcome A * trace.

Definition ret {A} (a : A) : M A := fun tr => (Return a, tr).

Definition bind {A B} (m : M A) (k : A -> M B) : M B :=
  fun tr =>
    match m tr with
    | (Return a, tr') => k a tr'
    | (Raise e, tr') => (Raise e, tr')
    end.

(** [try: body except Exception: handler]. *)
Definition try_except {A} (body : M A) (handler : Exception -> M A) : M A :=
  fun tr =>
    match body tr with
    | (Return a, tr') => (Return a, tr')
    | (Raise e, tr') => handler e tr'
    end.

Notation "x <- m ;; k" := (bind m (fun x => k))
  (at level 61, m at next level, right associativity).

(** The calls of a trace that run the tagger. *)
Definition is_tags_call (c : call) : bool :=
  match c with TagsCall _ => true | SentimentCall _ => false end.

(** ** The pipeline, over an arbitrary toolkit *)

Section Pipeline.

(** [TextBlob(text).sentiment]: a pair (polarity, subjectivity), or an
    exception. *)
Variable textblob_sentiment : pystr -> outcome (spec_float * spec_float).

(** [TextBlob(text).tags]: the (word, tag) pairs, or an exception. *)
Variable textblob_tags : pystr -> outcome (list (pystr * pystr)).

Definition blob_sentiment (text : pystr) : M (spec_float * spec_float) :=
  fun tr => (textblob_sentiment text, tr ++ [SentimentCall text]).

Definition blob_tags (text : pystr) : M (list (pystr * pystr)) :=
  fun tr => (textblob_tags text, tr ++ [TagsCall text]).

(** [[s.strip() for s in re.split('[.!?]+', text) if s.strip()]]. *)
Definition sentences_of (text : pystr) : list pystr :=
  map strip (filter (fun s => truthy (strip s)) (re_split_terminators text)).

(** app.py, lines 34-67. *)
Definition analyze_text_details (text : pystr) : M Details.t :=
  try_except
    (if negb (truthy (strip text))
     then ret (Details.mk 0 0 Counter.empty)
     else
       let words := split text in
       let sentences := sentences_of text in
       pos_counts <-
         try_except
           (tags <- blob_tags text ;;
            ret (Counter.of_list (map snd tags)))
           (fun _ => ret Counter.empty) ;;
       ret (Details.mk (length words) (length sentences) pos_counts))
    (fun _ =>
       ret (Details.mk (length (split text))
                       (length (sentences_of text))
                       Counter.empty)).

(** The conditional expression of line 75. *)
Definition classify (polarity : pynum) : category :=
  if gt0 polarity then Positive
  else if lt0 polarity then Negative
  else Neutral.

(** app.py, lines 70-87. *)
Definition get_sentiment (text : pystr) : M Sentiment.t :=
  try_except
    (blob <- blob_sentiment text ;;
     let polarity := PyFloat (fst blob) in
     let subjectivity := PyFloat (snd blob) in
     let category := classify polarity in
     ret (Sentiment.mk polarity subjectivity category))
    (fun _ => ret (Sentiment.mk (PyInt 0) (PyFloat float_half) Neutral)).

(** The expression of line 169:
    [text_input[:50] + "..." if len(text_input) > 50 else text_input]. *)
Definition preview (text_input : pystr) : pystr :=
  if 50 <? length text_input
  then firstn 50 text_input ++ str "..."
  else text_input.

(** What one run of [main] computes from a non-empty input. *)
Record analysis := mk_analysis {
  sentiment_results : Sentiment.t;
  text_details : Details.t;
  current_analysis : Entry.t
}.

(** app.py, lines 98-102 and 168-172: clean, score the cleaned text,
    take the statistics of the raw text, assemble the history entry. *)
Definition analyze (text_input : pystr) : M analysis :=
  let cleaned_text := clean_text text_input in
  sentiment_results <- get_sentiment cleaned_text ;;
  text_details <- analyze_text_details text_input ;;
  let current_analysis :=
    Entry.mk (preview text_input)
             (Sentiment.category sentiment_results)
             (Sentiment.polarity sentiment_results) in
  ret (mk_analysis sentiment_results text_details current_analysis).

End Pipeline.

(** ** The session history (app.py, lines 163-175) *)

(** [entry in history]. *)
Definition contains (history : list Entry.t) (entry : Entry.t) : bool :=
  existsb (fun item => Entry.eqb item entry) history.

(** Lines 174-175. *)
Definition append (history : list Entry.t) (entry : Entry.t)
  : list Entry.t :=
  if negb (contains history entry) then history ++ [entry] else history.

(** [st.session_state]: the key ['history'] is absent until the first
    analysis of the session. *)
Record session_state := { history : option (list Entry.t) }.

Definition session_start : session_state := {| history := None |}.

(** What [st.session_state.history] shows, the empty list before the key
    exists. *)
Definition snapshot (s : session_state) : list Entry.t :=
  match history s with
  | Some h => h
  | None => []
  end.

(** One run of [main] on the content of the text area (lines 94-175,
    rendering left out): nothing happens on an empty input. *)
Definition main
    (textblob_sentiment : pystr -> outcome (spec_float * spec_float))
    (textblob_tags : pystr -> outcome (list (pystr * pystr)))
    (text_input : pystr) (s : session_state) : M session_state :=
  if truthy text_input
  then
    a <- analyze textblob_sentiment textblob_tags text_input ;;
    let s :=
      match history s with
      | None => {| history := Some [] |}
      | Some _ => s
      end in
    ret {| history := Some (append (snapshot s) (current_analysis a)) |}
  else ret s.

(** The sessions that runs of [main] can produce: the start of a session,
    and from a reachable session one more run on any input, against
    whatever the toolkit answers during that run. *)
Inductive reachable : session_state -> Prop :=
  | reachable_start : reachable session_start
  | reachable_run :
      forall textblob_sentiment textblob_tags text_input s tr s' tr',
        reachable s ->
        main textblob_sentiment textblob_tags text_input s tr
          = (Return s', tr') ->
        reachable s'.

(** No two positions of a history hold dictionaries that are [==]. *)
Definition pairwise_distinct (h : list Entry.t) : Prop :=
  forall i j a b,
    i <> j -> nth_error h i = Some a -> nth_error h j = Some b ->
    Entry.eqb a b = false.

(** ** The counts as the specification words them *)

Module Spec.

(** "Count of whitespace-delimited tokens": one per position where a token
    begins, that is a non-whitespace character at the start of the text or
    right after whitespace. [at_gap] says that no token is open. *)
Fixpoint count_tokens (at_gap : bool) (s : pystr) : nat :=
  match s with
  | [] => 0
  | c :: s' =>
      if isspace c then count_tokens true s'
      else (if at_gap then 1 else 0) + count_tokens false s'
  end.

Definition word_count (text : pystr) : nat := count_tokens true text.

(** "Split on one-or-more occurrences of [.], [!] or [?]; trim each
    fragment; count non-empty fragments": one per fragment that holds a
    character other than whitespace. [blank] says that the fragment being
    read has shown none so far. *)
Fixpoint count_fragments (blank : bool) (s : pystr) : nat :=
  match s with
  | [] => 0
  | c :: s' =>
      if is_terminator c then count_fragments true s'
      else if isspace c then count_fragments blank s'
      else (if blank then 1 else 0) + count_fragments false s'
  end.

Definition sentence_count (text : pystr) : nat := count_fragments true text.

End Spec.

(** ** Reading the histogram (app.py, lines 135-140) *)

Module Chart.

(** [list(pos_counts.keys())] and [list(pos_counts.values())], the two
    columns of the data frame behind the bar chart. *)
Definition keys (c : Counter.t) : list pystr := map fst c.
Definition values (c : Counter.t) : list nat := map snd c.

(** [bool(pos_counts)], the test of line 135: the chart is drawn for a
    histogram that is not empty. *)
Definition shown (c : Counter.t) : bool :=
  match c with [] => false | _ :: _ => true end.

(** [pos_counts[key]]: the count under a key, [0] for a key that is
    absent. *)
Fixpoint get (c : Counter.t) (key : pystr) : nat :=
  match c with
  | [] => 0
  | (k, n) :: c' => if str_eqb k key then n else get c' key
  end.

Definition total (c : Counter.t) : nat := list_sum (values c).

End Chart.

(** ** Several runs in a row *)

(** [evolves s s']: the session [s'] comes from [s] by runs of [main], on
    any inputs and against any toolkit. *)
Inductive evolves (s : session_state) : session_state -> Prop :=
  | evolves_here : evolves s s
  | evolves_run :
      forall textblob_sentiment textblob_tags text_input s' tr s'' tr',
        evolves s s' ->
        main textblob_sentiment textblob_tags text_input s' tr
          = (Return s'', tr') ->
        evolves s s''.

(** ** The download at startup (app.py, lines 22-31) *)

Module Startup.

Definition punkt : pystr := str "punkt".


Section Download.

(** [nltk.download(name, quiet=True)]: a flag, or an exception. *)
Variable nltk_download : pystr -> outcome bool.



End Download.

End Startup.

(** ** More sample toolkits *)

Module Sample.

(** An estimator that finds every text neutral and objective. *)
Definition calm (text : pystr) : outcome (spec_float * spec_float) :=
  Return (float_zero, float_zero).

(** An estimator whose lexicon is absent. *)
Definition broken (text : pystr) : outcome (spec_float * spec_float) :=
  Raise {| exc_name := "MissingCorpusError" |}.

(** A machine without network: every download raises. *)
Definition offline (name : pystr) : outcome bool :=
  Raise {| exc_name := "URLError" |}.

(** Only the tokenizer package can be fetched. *)
Definition punkt_only (name : pystr) : outcome bool :=
  if str_eqb name Startup.punkt then Return true
  else Raise {| exc_name := "URLError" |}.

Definition long_a : pystr :=
  str "good things come to those who wait, and better ones to those who work".

Definition long_b : pystr :=
  str "good things come to those who wait, and better ones to those who ask".

End Sample.

(** ** A small toolkit for the examples *)

Module Demo.

Definition float_minus_half : spec_float :=
  Eval cbv in SFopp PyNum.float_half.

Definition missing_corpus : Exception :=
  {| exc_name := "MissingCorpusError" |}.

(** Scores a text by its first letter: [g] is favourable, [b] is not, [x]
    makes the estimator fail, anything else is neutral. *)
Definition sentiment (text : pystr) : outcome (spec_float * spec_float) :=
  match text with
  | [] => Return (float_zero, float_zero)
  | c :: _ =>
      if (c =? 103)%N then Return (float_half, float_half)
      else if (c =? 98)%N then Return (float_minus_half, float_half)
      else if (c =? 120)%N then Raise missing_corpus
      else Return (float_zero, float_zero)
  end.

(** Tags every word as a noun; fails on a text that starts with [x]. *)
Definition tags (text : pystr) : outcome (list (pystr * pystr)) :=
  match text with
  | c :: _ =>
      if (c =? 120)%N then Raise missing_corpus
      else Return (map (fun w => (w, str "NN")) (split text))
  | [] => Return []
  end.

(** A tagger whose model data is absent. *)
Definition no_tags (text : pystr) : outcome (list (pystr * pystr)) :=
  Raise missing_corpus.

Definition good : Entry.t :=
  Entry.mk (str "good day") Positive (PyFloat float_half).

Definition bad : Entry.t :=
  Entry.mk (str "bad day") Negative (PyFloat float_minus_half).

Definition long_text : pystr :=
  str "good things come to those who wait, and better ones to those who work".

End Demo.

(** * Properties *)

(** ** Evaluation on concrete inputs *)

Example clean_text_ex :
  clean_text (str "I LOVE 3 sunny days!") = str "i love  sunny days".
Proof. reflexivity. Qed.

Example split_ex :
  split (str "  I love   sunny days! ") =
  [str "I"; str "love"; str "sunny"; str "days!"].
Proof. reflexivity. Qed.

Example re_split_ex :
  re_split_terminators (str "Hi. How are you?! Fine") =
  [str "Hi"; str " How are you"; str " Fine"]
  /\ re_split_terminators (str "a.") = [str "a"; str ""]
  /\ re_split_terminators (str "..a") = [str ""; str "a"]
  /\ re_split_terminators (str "") = [str ""].
Proof. repeat split; reflexivity. Qed.

Example strip_ex : strip (str "  a b  ") = str "a b".
Proof. reflexivity. Qed.

Example sentences_ex :
  sentences_of (str "Hi. How are you?!  . Fine") =
  [str "Hi"; str "How are you"; str "Fine"].
Proof. reflexivity. Qed.

Example analyze_text_details_ex :
  analyze_text_details Demo.tags (str "good days. Really!") [] =
  (Return (Details.mk 3 2 [(str "NN", 3)]),
   [TagsCall (str "good days. Really!")]).
Proof. reflexivity. Qed.

Example counts_ex :
  analyze_text_details Demo.tags (str "I love sunny days!") [] =
  (Return (Details.mk 4 1 [(str "NN", 4)]),
   [TagsCall (str "I love sunny days!")])
  /\ Spec.word_count (str "I love sunny days!") = 4
  /\ Spec.sentence_count (str "Hi. . there") = 2
  /\ length (sentences_of (str "Hi. . there")) = 2.
Proof. repeat split; reflexivity. Qed.

Example get_sentiment_ex :
  get_sentiment Demo.sentiment (str "good") [] =
  (Return (Sentiment.mk (PyFloat float_half) (PyFloat float_half) Positive),
   [SentimentCall (str "good")]).
Proof. reflexivity. Qed.

Example main_ex :
  main Demo.sentiment Demo.tags (str "good day") session_start [] =
  (Return {| history := Some [Demo.good] |},
   [SentimentCall (str "good day"); TagsCall (str "good day")]).
Proof. reflexivity. Qed.

(** ** Characters and strings *)

Lemma between_spec lo hi c :
  between lo hi c = true <-> (lo <= c <= hi)%N.
Proof.
  unfold between. rewrite andb_true_iff, !N.leb_le. tauto.
Qed.

Lemma lower_char_is_lower c :
  is_upper c = true -> is_lower (lower_char c) = true.
Proof.
  unfold lower_char, is_upper, is_lower. intros H. rewrite H.
  apply between_spec in H. apply between_spec. lia.
Qed.

Lemma is_lower_not_upper c : is_lower c = true -> is_upper c = false.
Proof.
  unfold is_lower, is_upper. intros H. apply between_spec in H.
  destruct (between 65 90 c) eqn:E; [|reflexivity].
  apply between_spec in E. lia.
Qed.

Lemma lower_char_idem c : lower_char (lower_char c) = lower_char c.
Proof.
  unfold lower_char at 2 3. destruct (is_upper c) eqn:E.
  - unfold lower_char.
    rewrite (is_lower_not_upper (c + 32)%N); [reflexivity|].
    pose proof (lower_char_is_lower _ E) as H.
    unfold lower_char in H. now rewrite E in H.
  - unfold lower_char. now rewrite E.
Qed.

(** A character that survives the substitution still does once
    lower-cased. *)
Lemma kept_lower_char c : kept c = true -> kept (lower_char c) = true.
Proof.
  intros H. destruct (is_upper c) eqn:E.
  - unfold kept, is_ascii_letter.
    now rewrite (lower_char_is_lower _ E).
  - unfold lower_char. now rewrite E.
Qed.

Lemma filter_all_true {A} (p : A -> bool) (l : list A) :
  (forall x, In x l -> p x = true) -> filter p l = l.
Proof.
  induction l as [|a l IH]; intros H; simpl; [reflexivity|].
  rewrite (H a (or_introl eq_refl)). f_equal. apply IH.
  intros x Hx. apply H. now right.
Qed.

(** The result of [clean_text] holds lower-case letters and whitespace
    only. *)
Lemma clean_text_alphabet text c :
  In c (clean_text text) -> is_lower c = true \/ isspace c = true.
Proof.
  unfold clean_text, lower, re_sub_non_letters. rewrite in_map_iff.
  intros (d & <- & Hd). apply filter_In in Hd. destruct Hd as [_ Hd].
  unfold kept, is_ascii_letter in Hd.
  destruct (is_upper d) eqn:E.
  - left. now apply lower_char_is_lower.
  - unfold lower_char. rewrite E.
    rewrite orb_false_r in Hd. apply orb_true_iff in Hd. exact Hd.
Qed.

Lemma nonblank_app a b : nonblank (a ++ b) = nonblank a || nonblank b.
Proof. apply existsb_app. Qed.

Lemma nonblank_rev s : nonblank (rev s) = nonblank s.
Proof.
  induction s as [|c s IH]; [reflexivity|]. simpl.
  rewrite nonblank_app, IH. simpl. rewrite orb_false_r. apply orb_comm.
Qed.

Lemma truthy_rev s : truthy (rev s) = truthy s.
Proof.
  destruct s as [|c s]; [reflexivity|]. simpl.
  now destruct (rev s).
Qed.

Lemma nonblank_lstrip s : nonblank (lstrip s) = nonblank s.
Proof.
  induction s as [|c s IH]; [reflexivity|]. simpl.
  destruct (isspace c) eqn:E; simpl; [exact IH | now rewrite E].
Qed.

Lemma truthy_lstrip s : truthy (lstrip s) = nonblank s.
Proof.
  induction s as [|c s IH]; [reflexivity|]. simpl.
  destruct (isspace c) eqn:E; simpl; [exact IH | reflexivity].
Qed.

(** A string strips to a non-empty one exactly when it holds a character
    other than whitespace. *)
Lemma truthy_strip s : truthy (strip s) = nonblank s.
Proof.
  unfold strip.
  now rewrite truthy_rev, truthy_lstrip, nonblank_rev, nonblank_lstrip.
Qed.

Lemma nonblank_whitespace s : forallb isspace s = true -> nonblank s = false.
Proof.
  induction s as [|c s IH]; [reflexivity|]. simpl.
  intros H. apply andb_true_iff in H. destruct H as [Hc Hs].
  now rewrite Hc, IH.
Qed.

Lemma strip_whitespace s : forallb isspace s = true -> strip s = [].
Proof.
  intros H. pose proof (truthy_strip s) as T.
  rewrite (nonblank_whitespace _ H) in T.
  now destruct (strip s).
Qed.

(** ** The counts of the code are the counts of the specification *)

Lemma split_from_count cur s :
  length (split_from cur s) =
  (if truthy cur then 1 else 0) + Spec.count_tokens (negb (truthy cur)) s.
Proof.
  revert cur. induction s as [|c s IH]; intros cur; simpl.
  - now destruct cur.
  - destruct (isspace c).
    + destruct cur; simpl; rewrite IH; reflexivity.
    + rewrite IH. simpl. now destruct cur.
Qed.

Lemma split_word_count text : length (split text) = Spec.word_count text.
Proof. unfold split. now rewrite split_from_count. Qed.

Lemma re_split_from_count s : forall in_run cur,
  (in_run = true -> cur = []) ->
  length (filter (fun x => truthy (strip x)) (re_split_from in_run cur s)) =
  (if nonblank cur then 1 else 0)
  + Spec.count_fragments (negb (nonblank cur)) s.
Proof.
  induction s as [|c s IH]; intros in_run cur Hrun; simpl.
  - rewrite truthy_strip, nonblank_rev. destruct (nonblank cur); reflexivity.
  - destruct (is_terminator c).
    + destruct in_run.
      * rewrite (Hrun eq_refl). rewrite IH by reflexivity. reflexivity.
      * simpl. rewrite truthy_strip, nonblank_rev.
        destruct (nonblank cur); simpl; rewrite IH by reflexivity;
          reflexivity.
    + rewrite IH by discriminate. simpl.
      destruct (isspace c); simpl; [reflexivity|].
      destruct (nonblank cur); reflexivity.
Qed.

Lemma sentences_sentence_count text :
  length (sentences_of text) = Spec.sentence_count text.
Proof.
  unfold sentences_of, re_split_terminators.
  rewrite length_map, re_split_from_count by discriminate. reflexivity.
Qed.

(** ** Numbers *)

Lemma SFeqb_refl f : f <> S754_nan -> SFeqb f f = true.
Proof.
  unfold SFeqb. destruct f as [s|s| |s m e]; simpl; intros H.
  - reflexivity.
  - now destruct s.
  - now elim H.
  - rewrite Z.compare_refl, Pos.compare_cont_refl. now destruct s.
Qed.

Lemma compare_cont_Eq_sym m n :
  Pos.compare_cont Eq m n = Eq <-> Pos.compare_cont Eq n m = Eq.
Proof.
  change (Pos.compare_cont Eq m n) with (Pos.compare m n).
  change (Pos.compare_cont Eq n m) with (Pos.compare n m).
  rewrite !Pos.compare_eq_iff. split; congruence.
Qed.

Lemma SFcompare_Eq_sym f g :
  SFcompare f g = Some Eq -> SFcompare g f = Some Eq.
Proof.
  destruct f as [s|s| |s m e], g as [t|t| |t n e']; simpl;
    try discriminate; try reflexivity;
    try (destruct s; discriminate); try (destruct t; discriminate).
  - destruct s, t; (discriminate || reflexivity).
  - destruct s, t; try discriminate;
      rewrite (Z.compare_antisym e e');
      destruct (e ?= e')%Z eqn:E; simpl; try discriminate;
      intros H; f_equal;
      destruct (Pos.compare_cont Eq m n) eqn:C; try discriminate;
      apply compare_cont_Eq_sym in C; now rewrite C.
Qed.

Lemma SFeqb_sym f g : SFeqb f g = SFeqb g f.
Proof.
  unfold SFeqb.
  destruct (SFcompare f g) as [[| |]|] eqn:A.
  - now rewrite (SFcompare_Eq_sym _ _ A).
  - destruct (SFcompare g f) as [[| |]|] eqn:B; try reflexivity.
    apply SFcompare_Eq_sym in B. congruence.
  - destruct (SFcompare g f) as [[| |]|] eqn:B; try reflexivity.
    apply SFcompare_Eq_sym in B. congruence.
  - destruct (SFcompare g f) as [[| |]|] eqn:B; try reflexivity.
    apply SFcompare_Eq_sym in B. congruence.
Qed.

Lemma pynum_eqb_refl x : is_nan x = false -> PyNum.eqb x x = true.
Proof.
  destruct x as [z|f]; simpl; intros H.
  - apply Z.eqb_refl.
  - apply SFeqb_refl. intros ->. discriminate.
Qed.

Lemma pynum_eqb_sym x y : PyNum.eqb x y = PyNum.eqb y x.
Proof.
  destruct x, y; simpl; try reflexivity.
  - apply Z.eqb_sym.
  - apply SFeqb_sym.
Qed.

(** A finite non-zero float is not [== 0]. *)
Lemma finite_neq_int0 s m e : float_eq_int (S754_finite s m e) 0 = false.
Proof.
  unfold float_eq_int.
  set (v := if s then Z.neg m else Z.pos m).
  assert (Hv : v <> 0%Z) by (subst v; destruct s; discriminate).
  destruct (0 <=? e)%Z eqn:E.
  - apply Z.leb_le in E. apply Z.eqb_neq.
    assert (0 < 2 ^ e)%Z by (apply Z.pow_pos_nonneg; lia). nia.
  - apply Z.leb_gt in E.
    assert (Hd : (0 < 2 ^ (- e))%Z) by (apply Z.pow_pos_nonneg; lia).
    destruct (v mod 2 ^ (- e) =? 0)%Z eqn:Hm; [|reflexivity].
    apply Z.eqb_eq in Hm. rewrite andb_true_l. apply Z.eqb_neq. intros Hq.
    pose proof (Z.div_mod v (2 ^ (- e))%Z ltac:(lia)) as D.
    rewrite Hm, <- Hq in D. lia.
Qed.

(** The three tests of a number against zero: at most one holds, and
    exactly one unless the number is NaN. *)
Lemma sign_cases x :
  (gt0 x = true /\ lt0 x = false /\ eq0 x = false)
  \/ (gt0 x = false /\ lt0 x = true /\ eq0 x = false)
  \/ (gt0 x = false /\ lt0 x = false /\ eq0 x = true)
  \/ (gt0 x = false /\ lt0 x = false /\ eq0 x = false /\ is_nan x = true).
Proof.
  destruct x as [z|f].
  - unfold gt0, lt0, eq0; simpl.
    destruct (Z.ltb_spec 0 z), (Z.ltb_spec z 0), (Z.eqb_spec z 0);
      try lia; auto.
  - unfold gt0, lt0, eq0, PyNum.eqb.
    destruct f as [s|s| |s m e].
    + right; right; left. repeat split; reflexivity.
    + destruct s; [right; left | left]; repeat split; reflexivity.
    + right; right; right. repeat split; reflexivity.
    + rewrite finite_neq_int0.
      destruct s; [right; left | left]; repeat split; reflexivity.
Qed.

Lemma classify_Positive x : classify x = Positive <-> gt0 x = true.
Proof.
  unfold classify. destruct (gt0 x); [tauto|].
  destruct (lt0 x); split; discriminate.
Qed.

Lemma classify_Negative x : classify x = Negative <-> lt0 x = true.
Proof.
  unfold classify.
  destruct (sign_cases x) as [(G & L & _)|[(G & L & _)|[(G & L & _)|(G & L & _)]]];
    rewrite ?G, ?L; split; (discriminate || reflexivity).
Qed.

Lemma classify_Neutral x :
  is_nan x = false -> (classify x = Neutral <-> eq0 x = true).
Proof.
  unfold classify. intros N.
  destruct (sign_cases x)
    as [(G & L & Z)|[(G & L & Z)|[(G & L & Z)|(G & L & Z & N')]]];
    rewrite ?G, ?L, ?Z; try (split; (discriminate || reflexivity)).
  congruence.
Qed.

(** ** History entries *)

Lemma str_eqb_refl a : str_eqb a a = true.
Proof. unfold str_eqb. now destruct (list_eq_dec N.eq_dec a a). Qed.

Lemma str_eqb_eq a b : str_eqb a b = true <-> a = b.
Proof.
  unfold str_eqb. destruct (list_eq_dec N.eq_dec a b); split;
    (congruence || discriminate || reflexivity).
Qed.

Lemma str_eqb_sym a b : str_eqb a b = str_eqb b a.
Proof.
  unfold str_eqb.
  destruct (list_eq_dec N.eq_dec a b), (list_eq_dec N.eq_dec b a);
    congruence.
Qed.

Lemma category_eqb_sym a b : category_eqb a b = category_eqb b a.
Proof. now destruct a, b. Qed.

Lemma entry_eqb_refl e :
  is_nan (Entry.polarity e) = false -> Entry.eqb e e = true.
Proof.
  intros H. unfold Entry.eqb.
  rewrite str_eqb_refl, (pynum_eqb_refl _ H).
  now destruct (Entry.sentiment e).
Qed.

Lemma entry_eqb_sym a b : Entry.eqb a b = Entry.eqb b a.
Proof.
  unfold Entry.eqb.
  now rewrite str_eqb_sym, category_eqb_sym, pynum_eqb_sym.
Qed.

Lemma contains_false h e :
  contains h e = false <-> (forall x, In x h -> Entry.eqb x e = false).
Proof.
  unfold contains. split.
  - intros H x Hx. destruct (Entry.eqb x e) eqn:E; [|reflexivity].
    rewrite <- H. symmetry. apply existsb_exists. now exists x.
  - intros H. destruct (existsb _ h) eqn:E; [|reflexivity].
    apply existsb_exists in E. destruct E as (x & Hx & Ex).
    rewrite (H x Hx) in Ex. discriminate.
Qed.

Lemma app_one_neq {A} (h : list A) (e : A) : h <> h ++ [e].
Proof.
  intros H. apply (f_equal (@length A)) in H.
  rewrite length_app in H. simpl in H. lia.
Qed.

(** ** What each function returns *)

Section Runs.

Variable textblob_sentiment : pystr -> outcome (spec_float * spec_float).
Variable textblob_tags : pystr -> outcome (list (pystr * pystr)).

Lemma get_sentiment_scored text tr p q :
  textblob_sentiment text = Return (p, q) ->
  get_sentiment textblob_sentiment text tr =
  (Return (Sentiment.mk (PyFloat p) (PyFloat q) (classify (PyFloat p))),
   tr ++ [SentimentCall text]).
Proof.
  intros H. unfold get_sentiment, try_except, bind, blob_sentiment.
  rewrite H. reflexivity.
Qed.

Lemma get_sentiment_fallback text tr e :
  textblob_sentiment text = Raise e ->
  get_sentiment textblob_sentiment text tr =
  (Return (Sentiment.mk (PyInt 0) (PyFloat float_half) Neutral),
   tr ++ [SentimentCall text]).
Proof.
  intros H. unfold get_sentiment, try_except, bind, blob_sentiment.
  rewrite H. reflexivity.
Qed.

(** Whatever the estimator does, [get_sentiment] returns, after one call,
    a dictionary whose category is the class of its polarity. *)
Lemma get_sentiment_returns text tr :
  exists r,
    get_sentiment textblob_sentiment text tr
      = (Return r, tr ++ [SentimentCall text])
    /\ Sentiment.category r = classify (Sentiment.polarity r)
    /\ (forall p q, textblob_sentiment text = Return (p, q) ->
        Sentiment.polarity r = PyFloat p)
    /\ (forall e, textblob_sentiment text = Raise e ->
        Sentiment.polarity r = PyInt 0).
Proof.
  destruct (textblob_sentiment text) as [[p q]|e] eqn:H.
  - eexists. split; [apply get_sentiment_scored; exact H|].
    repeat split; simpl; congruence.
  - eexists. split; [apply get_sentiment_fallback with (e := e); exact H|].
    repeat split; simpl; congruence.
Qed.

Lemma details_blank text tr :
  nonblank text = false ->
  analyze_text_details textblob_tags text tr =
  (Return (Details.mk 0 0 Counter.empty), tr).
Proof.
  intros H. unfold analyze_text_details, try_except.
  rewrite truthy_strip, H. reflexivity.
Qed.

Lemma details_tagged text tr tags :
  nonblank text = true ->
  textblob_tags text = Return tags ->
  analyze_text_details textblob_tags text tr =
  (Return (Details.mk (length (split text)) (length (sentences_of text))
                      (Counter.of_list (map snd tags))),
   tr ++ [TagsCall text]).
Proof.
  intros H T. unfold analyze_text_details, try_except, bind, blob_tags.
  rewrite truthy_strip, H, T. reflexivity.
Qed.

Lemma details_untagged text tr e :
  nonblank text = true ->
  textblob_tags text = Raise e ->
  analyze_text_details textblob_tags text tr =
  (Return (Details.mk (length (split text)) (length (sentences_of text))
                      Counter.empty),
   tr ++ [TagsCall text]).
Proof.
  intros H T. unfold analyze_text_details, try_except, bind, blob_tags.
  rewrite truthy_strip, H, T. reflexivity.
Qed.

(** [analyze_text_details] returns on every text; it calls the tagger at
    most once, and not at all on a blank text. *)
Lemma details_returns text tr :
  exists d,
    analyze_text_details textblob_tags text tr
      = (Return d, tr ++ (if nonblank text then [TagsCall text] else [])).
Proof.
  destruct (nonblank text) eqn:H.
  - destruct (textblob_tags text) as [tags|e] eqn:T.
    + eexists. apply details_tagged; [exact H | exact T].
    + eexists. apply details_untagged with (e := e); [exact H | exact T].
  - eexists. rewrite app_nil_r. apply details_blank. exact H.
Qed.

(** [analyze] is the two of them in sequence, with the entry built from
    the input and the sentiment. *)
Lemma analyze_returns text_input tr :
  exists r d,
    get_sentiment textblob_sentiment (clean_text text_input) tr
      = (Return r, tr ++ [SentimentCall (clean_text text_input)])
    /\ Sentiment.category r = classify (Sentiment.polarity r)
    /\ (forall p q,
          textblob_sentiment (clean_text text_input) = Return (p, q) ->
          Sentiment.polarity r = PyFloat p)
    /\ (forall e,
          textblob_sentiment (clean_text text_input) = Raise e ->
          Sentiment.polarity r = PyInt 0)
    /\ analyze_text_details textblob_tags text_input
         (tr ++ [SentimentCall (clean_text text_input)])
       = (Return d,
          (tr ++ [SentimentCall (clean_text text_input)])
          ++ (if nonblank text_input then [TagsCall text_input] else []))
    /\ analyze textblob_sentiment textblob_tags text_input tr
       = (Return (mk_analysis r d
                    (Entry.mk (preview text_input) (Sentiment.category r)
                              (Sentiment.polarity r))),
          (tr ++ [SentimentCall (clean_text text_input)])
          ++ (if nonblank text_input then [TagsCall text_input] else [])).
Proof.
  destruct (get_sentiment_returns (clean_text text_input) tr)
    as (r & Hr & Hc & Hp & Hf).
  destruct (details_returns text_input
              (tr ++ [SentimentCall (clean_text text_input)])) as (d & Hd).
  exists r, d. repeat (split; [assumption|]).
  unfold analyze, bind. rewrite Hr, Hd. reflexivity.
Qed.

End Runs.

(** One run of [main] returns a session whose history is the former one
    with the entry of this run appended by [append], or the former one
    untouched on an empty input. *)
Lemma main_returns sent tags text_input s tr :
  exists s' tr',
    main sent tags text_input s tr = (Return s', tr')
    /\ (snapshot s' = snapshot s
        \/ exists e, snapshot s' = append (snapshot s) e).
Proof.
  unfold main. destruct (truthy text_input).
  - destruct (analyze_returns sent tags text_input tr)
      as (r & d & _ & _ & _ & _ & _ & Ha).
    unfold bind. rewrite Ha. do 2 eexists. split; [reflexivity|].
    right.
    exists (Entry.mk (preview text_input) (Sentiment.category r)
                     (Sentiment.polarity r)).
    destruct s as [[h|]]; reflexivity.
  - do 2 eexists. split; [reflexivity|]. now left.
Qed.

Lemma terminator_not_space c : isspace c = true -> is_terminator c = false.
Proof.
  unfold is_terminator. intros H.
  destruct (N.eqb_spec c 46) as [->|]; [discriminate H|].
  destruct (N.eqb_spec c 33) as [->|]; [discriminate H|].
  destruct (N.eqb_spec c 63) as [->|]; [discriminate H|].
  reflexivity.
Qed.

Lemma blank_counts s :
  nonblank s = false ->
  Spec.word_count s = 0 /\ Spec.sentence_count s = 0.
Proof.
  unfold Spec.word_count, Spec.sentence_count.
  induction s as [|c s IH]; simpl; [split; reflexivity|].
  intros H. apply orb_false_iff in H. destruct H as [Hc Hs].
  apply negb_false_iff in Hc. rewrite Hc, (terminator_not_space _ Hc).
  apply IH, Hs.
Qed.

(** ** The history stays free of repeats *)

Lemma pairwise_distinct_nil : pairwise_distinct [].
Proof. intros i j a b _ H. destruct i; discriminate H. Qed.

Lemma nth_error_snoc {A} (h : list A) (e : A) i a :
  nth_error (h ++ [e]) i = Some a ->
  (i < length h /\ nth_error h i = Some a) \/ (i = length h /\ a = e).
Proof.
  intros H. destruct (Nat.lt_ge_cases i (length h)) as [L|G].
  - left. split; [exact L|]. now rewrite nth_error_app1 in H.
  - right. rewrite nth_error_app2 in H by exact G.
    destruct (i - length h) as [|k] eqn:K; simpl in H.
    + split; [lia | congruence].
    + destruct k; discriminate H.
Qed.

Lemma pairwise_distinct_append h e :
  pairwise_distinct h -> pairwise_distinct (append h e).
Proof.
  intros D. unfold append. destruct (contains h e) eqn:C; simpl; [exact D|].
  rewrite contains_false in C.
  intros i j a b Hij Ha Hb.
  apply nth_error_snoc in Ha. apply nth_error_snoc in Hb.
  destruct Ha as [[Li Ha]|[Ei ->]], Hb as [[Lj Hb]|[Ej ->]].
  - exact (D i j a b Hij Ha Hb).
  - apply C. eapply nth_error_In, Ha.
  - rewrite entry_eqb_sym. apply C. eapply nth_error_In, Hb.
  - lia.
Qed.

Lemma reachable_distinct s : reachable s -> pairwise_distinct (snapshot s).
Proof.
  induction 1 as [|sent tags text s tr s' tr' _ IH Hrun].
  - apply pairwise_distinct_nil.
  - destruct (main_returns sent tags text s tr)
      as (s1 & tr1 & Hm & [Hs|[e Hs]]);
      rewrite Hrun in Hm; injection Hm as <- <-; rewrite Hs.
    + exact IH.
    + now apply pairwise_distinct_append.
Qed.

(** * The claims *)

(** C1. Whenever the estimator does not answer NaN for the cleaned text
    (its polarity lies in [-1, 1]), [analyze] returns, and in its result the
    category is Positive exactly when the polarity is [> 0], Negative
    exactly when it is [< 0], Neutral exactly when it is [== 0]; the
    category is the class of the polarity, in the sentiment dictionary and
    in the history entry alike. *)
Theorem category_follows_polarity sent tags (s : pystr) (tr : trace) :
  (forall q, sent (clean_text s) <> Return (S754_nan, q)) ->
  exists a tr',
    analyze sent tags s tr = (Return a, tr')
    /\ (let r := sentiment_results a in
        (Sentiment.category r = Positive
           <-> gt0 (Sentiment.polarity r) = true)
        /\ (Sentiment.category r = Negative
           <-> lt0 (Sentiment.polarity r) = true)
        /\ (Sentiment.category r = Neutral
           <-> eq0 (Sentiment.polarity r) = true)
        /\ Sentiment.category r = classify (Sentiment.polarity r))
    /\ Entry.sentiment (current_analysis a)
       = classify (Entry.polarity (current_analysis a)).
Proof.
  intros Hnan.
  destruct (analyze_returns sent tags s tr)
    as (r & d & _ & Hc & Hp & Hf & _ & Ha).
  do 2 eexists. split; [exact Ha|]. simpl.
  assert (N : is_nan (Sentiment.polarity r) = false).
  { destruct (sent (clean_text s)) as [[p q]|e] eqn:E.
    - rewrite (Hp p q eq_refl). destruct p; try reflexivity.
      now elim (Hnan q).
    - now rewrite (Hf e eq_refl). }
  rewrite Hc. split; [|reflexivity].
  repeat split;
    try apply classify_Positive; try apply classify_Negative;
    try (apply classify_Neutral; exact N).
Qed.

Lemma category_follows_polarity_witness :
  exists a tr',
    analyze Demo.sentiment Demo.tags (str "Good day!") [] = (Return a, tr')
    /\ (let r := sentiment_results a in
        (Sentiment.category r = Positive
           <-> gt0 (Sentiment.polarity r) = true)
        /\ (Sentiment.category r = Negative
           <-> lt0 (Sentiment.polarity r) = true)
        /\ (Sentiment.category r = Neutral
           <-> eq0 (Sentiment.polarity r) = true)
        /\ Sentiment.category r = classify (Sentiment.polarity r))
    /\ Entry.sentiment (current_analysis a)
       = classify (Entry.polarity (current_analysis a)).
Proof.
  apply category_follows_polarity.
  intros q. vm_compute. discriminate.
Defined.

(** C2. [append] adds the entry at the end exactly when no entry of the
    whole history is [==] to it, and leaves the history as it is exactly
    when some entry is; appending twice in a row, to the empty history, an
    entry whose polarity is a number gives a history of length 1. *)
Theorem append_iff_absent (h : list Entry.t) (e : Entry.t) :
  (append h e = h ++ [e] <-> forall x, In x h -> Entry.eqb x e = false)
  /\ (append h e = h <-> exists x, In x h /\ Entry.eqb x e = true)
  /\ (is_nan (Entry.polarity e) = false ->
      append (append [] e) e = [e]
      /\ length (append (append [] e) e) = 1).
Proof.
  split; [|split].
  - rewrite <- contains_false. unfold append.
    destruct (contains h e); simpl; split; try reflexivity; try discriminate.
    intros H. now apply app_one_neq in H.
  - unfold append, contains.
    destruct (existsb (fun item => Entry.eqb item e) h) eqn:C; simpl.
    + split; [|reflexivity]. intros _. apply existsb_exists in C. exact C.
    + split.
      * intros H. symmetry in H. now apply app_one_neq in H.
      * intros Hx. apply existsb_exists in Hx. congruence.
  - intros N. unfold append at 2. simpl.
    unfold append, contains. simpl.
    rewrite (entry_eqb_refl _ N). simpl. split; reflexivity.
Qed.

Lemma append_iff_absent_witness :
  append (append [] Demo.good) Demo.good = [Demo.good]
  /\ length (append (append [] Demo.good) Demo.good) = 1.
Proof.
  apply (append_iff_absent [] Demo.good). reflexivity.
Defined.

(** C3, as the code has it. Appending to the empty history [e1], then an
    [e2] that is not [==] to it, then [e1] again gives the two entries
    [[e1; e2]]: the repeat is found by the scan of the whole history and is
    not appended. *)
Theorem repeat_after_other_is_dropped (e1 e2 : Entry.t) :
  is_nan (Entry.polarity e1) = false ->
  Entry.eqb e1 e2 = false ->
  append (append (append [] e1) e2) e1 = [e1; e2].
Proof.
  intros N D. unfold append, contains. simpl.
  rewrite D. simpl. rewrite (entry_eqb_refl _ N). reflexivity.
Qed.

Lemma repeat_after_other_is_dropped_witness :
  append (append (append [] Demo.good) Demo.bad) Demo.good
  = [Demo.good; Demo.bad].
Proof.
  apply repeat_after_other_is_dropped; reflexivity.
Defined.

(** C3, as stated, fails: with two entries that differ, the third append
    does not give the three entries [[e1; e2; e1]]. *)
Lemma repeat_after_other_not_three :
  Entry.eqb Demo.good Demo.bad = false
  /\ append (append (append [] Demo.good) Demo.bad) Demo.good
     <> [Demo.good; Demo.bad; Demo.good]
  /\ length (append (append (append [] Demo.good) Demo.bad) Demo.good) = 2.
Proof.
  split; [reflexivity|]. split; [|reflexivity].
  vm_compute. discriminate.
Qed.

(** C4. On an empty or whitespace-only text, [analyze_text_details]
    returns zero words, zero sentences and an empty histogram and leaves
    the trace as it found it: no toolkit call is made. Within [analyze]
    the only call is the one of the sentiment estimator, none to the
    tagger. *)
Theorem blank_text_short_circuits sent tags (s : pystr) (tr : trace) :
  forallb isspace s = true ->
  analyze_text_details tags s tr
    = (Return (Details.mk 0 0 Counter.empty), tr)
  /\ exists a,
       analyze sent tags s tr
         = (Return a, tr ++ [SentimentCall (clean_text s)])
       /\ text_details a = Details.mk 0 0 Counter.empty
       /\ filter is_tags_call (tr ++ [SentimentCall (clean_text s)])
          = filter is_tags_call tr.
Proof.
  intros W. pose proof (nonblank_whitespace _ W) as B.
  split; [apply details_blank; exact B|].
  destruct (analyze_returns sent tags s tr)
    as (r & d & _ & _ & _ & _ & Hd & Ha).
  rewrite B, app_nil_r in Ha, Hd.
  rewrite (@details_blank tags s _ B) in Hd. injection Hd as <-.
  eexists. split; [exact Ha|]. split; [reflexivity|].
  rewrite filter_app. simpl. apply app_nil_r.
Qed.

Lemma blank_text_short_circuits_witness :
  analyze_text_details Demo.tags (str "   ") []
    = (Return (Details.mk 0 0 Counter.empty), [])
  /\ exists a,
       analyze Demo.sentiment Demo.tags (str "   ") []
         = (Return a, [] ++ [SentimentCall (clean_text (str "   "))])
       /\ text_details a = Details.mk 0 0 Counter.empty
       /\ filter is_tags_call ([] ++ [SentimentCall (clean_text (str "   "))])
          = filter is_tags_call [].
Proof.
  apply (blank_text_short_circuits Demo.sentiment Demo.tags (str "   ") []).
  reflexivity.
Defined.

(** C5. When the estimator raises on a text, [get_sentiment] returns (it
    does not raise) the dictionary with polarity [0], which is [== 0.0],
    subjectivity [0.5] and category Neutral. *)
Theorem sentiment_failure_falls_back sent (text : pystr) (tr : trace) e :
  sent text = Raise e ->
  get_sentiment sent text tr
    = (Return (Sentiment.mk (PyInt 0) (PyFloat float_half) Neutral),
       tr ++ [SentimentCall text])
  /\ PyNum.eqb (PyInt 0) (PyFloat float_zero) = true
  /\ float_half = SFldexp 53 1024 (SFone 53 1024) (-1).
Proof.
  intros H. split; [|split; reflexivity].
  apply get_sentiment_fallback with (e := e). exact H.
Qed.

Lemma sentiment_failure_falls_back_witness :
  get_sentiment Demo.sentiment (str "xyz") []
    = (Return (Sentiment.mk (PyInt 0) (PyFloat float_half) Neutral),
       [] ++ [SentimentCall (str "xyz")])
  /\ PyNum.eqb (PyInt 0) (PyFloat float_zero) = true
  /\ float_half = SFldexp 53 1024 (SFone 53 1024) (-1).
Proof.
  apply (@sentiment_failure_falls_back Demo.sentiment (str "xyz") []
           Demo.missing_corpus).
  reflexivity.
Defined.

(** C6. When the tagger raises on a text, [analyze_text_details] still
    returns: the histogram is empty, the word count is the number of
    whitespace-delimited tokens of the text and the sentence count the
    number of its non-blank fragments between runs of [.], [!] and [?]. *)
Theorem tagging_failure_keeps_counts tags (text : pystr) (tr : trace) e :
  tags text = Raise e ->
  analyze_text_details tags text tr
    = (Return (Details.mk (Spec.word_count text) (Spec.sentence_count text)
                          Counter.empty),
       tr ++ (if nonblank text then [TagsCall text] else [])).
Proof.
  intros H. destruct (nonblank text) eqn:B.
  - rewrite <- split_word_count, <- sentences_sentence_count.
    apply details_untagged with (e := e); assumption.
  - destruct (blank_counts _ B) as [-> ->].
    rewrite app_nil_r. apply details_blank. exact B.
Qed.

Lemma tagging_failure_keeps_counts_witness :
  analyze_text_details Demo.no_tags (str "I love sunny days!") []
    = (Return (Details.mk (Spec.word_count (str "I love sunny days!"))
                          (Spec.sentence_count (str "I love sunny days!"))
                          Counter.empty),
       [] ++ (if nonblank (str "I love sunny days!")
              then [TagsCall (str "I love sunny days!")] else [])).
Proof.
  apply (@tagging_failure_keeps_counts Demo.no_tags
           (str "I love sunny days!") [] Demo.missing_corpus).
  reflexivity.
Defined.

Lemma preview_long text :
  50 < length text ->
  preview text = firstn 50 text ++ str "..." /\ length (preview text) = 53.
Proof.
  intros L. unfold preview.
  destruct (Nat.ltb_spec 50 (length text)) as [_|G]; [|lia].
  split; [reflexivity|].
  rewrite length_app, length_firstn, Nat.min_l by lia. reflexivity.
Qed.

Lemma preview_short text : length text <= 50 -> preview text = text.
Proof.
  intros L. unfold preview.
  destruct (Nat.ltb_spec 50 (length text)) as [G|_]; [lia | reflexivity].
Qed.

(** C7. [analyze] returns, and the text of the entry it builds is, for an
    input of more than 50 characters, the first 50 characters followed by
    ["..."], 53 characters in all, and for an input of at most 50
    characters the input itself. *)
Theorem preview_truncates sent tags (text : pystr) (tr : trace) :
  exists a tr',
    analyze sent tags text tr = (Return a, tr')
    /\ (50 < length text ->
        length (Entry.text (current_analysis a)) = 53
        /\ Entry.text (current_analysis a) = firstn 50 text ++ str "...")
    /\ (length text <= 50 -> Entry.text (current_analysis a) = text).
Proof.
  destruct (analyze_returns sent tags text tr)
    as (r & d & _ & _ & _ & _ & _ & Ha).
  do 2 eexists. split; [exact Ha|]. simpl. split.
  - intros L. destruct (preview_long _ L). now split.
  - apply preview_short.
Qed.

(** C8. [clean_text], which drops every character that is neither an
    ASCII letter nor whitespace and lower-cases what is left, gives the
    same string when applied a second time. *)
Theorem clean_text_idempotent (s : pystr) :
  clean_text s = map lower_char (filter kept s)
  /\ clean_text (clean_text s) = clean_text s.
Proof.
  split; [reflexivity|].
  unfold clean_text, lower, re_sub_non_letters.
  rewrite filter_all_true.
  - rewrite map_map. apply map_ext. intros c. apply lower_char_idem.
  - intros c Hc. apply in_map_iff in Hc. destruct Hc as (d & <- & Hd).
    apply filter_In in Hd. apply kept_lower_char, Hd.
Qed.

(** C9. On every text, from every trace and whatever the two toolkit
    calls do, [get_sentiment], [analyze_text_details], [analyze] and a run
    of [main] all return a value, none raises; the result of [analyze]
    holds a category that is the class of its polarity and an entry made
    of the preview, that category and that polarity. *)
Theorem analyze_total sent tags (text : pystr) (tr : trace) :
  (exists r tr', get_sentiment sent text tr = (Return r, tr'))
  /\ (exists d tr', analyze_text_details tags text tr = (Return d, tr'))
  /\ (exists a tr',
        analyze sent tags text tr = (Return a, tr')
        /\ Sentiment.category (sentiment_results a)
           = classify (Sentiment.polarity (sentiment_results a))
        /\ current_analysis a
           = Entry.mk (preview text)
               (Sentiment.category (sentiment_results a))
               (Sentiment.polarity (sentiment_results a))
        /\ length (Entry.text (current_analysis a)) <= 53)
  /\ (forall s, exists s' tr', main sent tags text s tr = (Return s', tr')).
Proof.
  split; [|split; [|split]].
  - destruct (get_sentiment_returns sent text tr) as (r & Hr & _).
    now exists r, (tr ++ [SentimentCall text]).
  - destruct (details_returns tags text tr) as (d & Hd).
    do 2 eexists. exact Hd.
  - destruct (analyze_returns sent tags text tr)
      as (r & d & _ & Hc & _ & _ & _ & Ha).
    do 2 eexists. split; [exact Ha|]. simpl.
    split; [exact Hc|]. split; [reflexivity|].
    destruct (Nat.lt_ge_cases 50 (length text)) as [L|G].
    + destruct (preview_long _ L) as [_ ->]. lia.
    + rewrite (preview_short _ G). lia.
  - intros s. destruct (main_returns sent tags text s tr) as (s' & tr' & H & _).
    now exists s', tr'.
Qed.

(** C10. In every session that runs of [main] can reach, no two positions
    of the history hold entries that are [==]; two positions never hold
    the same entry either, as long as its polarity is a number. *)
Theorem history_entries_distinct (s : session_state) :
  reachable s ->
  forall i j a b,
    i <> j ->
    nth_error (snapshot s) i = Some a ->
    nth_error (snapshot s) j = Some b ->
    Entry.eqb a b = false
    /\ (is_nan (Entry.polarity a) = false -> a <> b).
Proof.
  intros R i j a b Hij Ha Hb.
  pose proof (reachable_distinct R Hij Ha Hb) as D.
  split; [exact D|].
  intros N ->. rewrite (entry_eqb_refl _ N) in D. discriminate.
Qed.

Lemma history_entries_distinct_witness :
  Entry.eqb Demo.good Demo.bad = false
  /\ (is_nan (Entry.polarity Demo.good) = false -> Demo.good <> Demo.bad).
Proof.
  apply (@history_entries_distinct
           {| history := Some [Demo.good; Demo.bad] |}) with (i := 0) (j := 1).
  - apply (@reachable_run Demo.sentiment Demo.tags (str "good day")
             {| history := Some [Demo.good; Demo.bad] |} []
             {| history := Some [Demo.good; Demo.bad] |}
             [SentimentCall (str "good day"); TagsCall (str "good day")]).
    + apply (@reachable_run Demo.sentiment Demo.tags (str "bad day")
               {| history := Some [Demo.good] |} []
               {| history := Some [Demo.good; Demo.bad] |}
               [SentimentCall (str "bad day"); TagsCall (str "bad day")]).
      * apply (@reachable_run Demo.sentiment Demo.tags (str "good day")
                 session_start []
                 {| history := Some [Demo.good] |}
                 [SentimentCall (str "good day"); TagsCall (str "good day")]).
        -- apply reachable_start.
        -- reflexivity.
      * reflexivity.
    + reflexivity.
  - discriminate.
  - reflexivity.
  - reflexivity.
Defined.

(** * Further properties of the code *)

(** ** The text cleaner *)

Lemma space_not_upper c : isspace c = true -> is_upper c = false.
Proof.
  intros H. unfold is_upper. destruct (between 65 90 c) eqn:E; [|reflexivity].
  apply between_spec in E. unfold isspace in H.
  repeat (apply orb_true_iff in H; destruct H as [H|H]);
    try (apply between_spec in H; lia);
    apply N.eqb_eq in H; lia.
Qed.

(** The alphabet of cleaned strings. *)
Lemma plain_char_fixed c :
  is_lower c || isspace c = true -> kept c = true /\ lower_char c = c.
Proof.
  intros H. apply orb_true_iff in H. unfold kept, is_ascii_letter, lower_char.
  destruct H as [H|H].
  - rewrite H, (is_lower_not_upper _ H). now split.
  - rewrite H, (space_not_upper _ H), orb_true_r. now split.
Qed.

Lemma clean_text_app a b : clean_text (a ++ b) = clean_text a ++ clean_text b.
Proof.
  unfold clean_text, lower, re_sub_non_letters.
  now rewrite filter_app, map_app.
Qed.

Lemma filter_length_eq {A} (p : A -> bool) (l : list A) :
  length (filter p l) = length l -> forallb p l = true.
Proof.
  induction l as [|a l IH]; simpl; [reflexivity|].
  destruct (p a); simpl; intros H.
  - apply IH. lia.
  - pose proof (filter_length_le p l). lia.
Qed.

(** X1. The result of [clean_text] is made of lower-case ASCII letters and
    whitespace only; in particular it holds no sentence terminator and no
    capital. *)
Theorem clean_text_output_alphabet (s : pystr) :
  Forall (fun c => is_lower c || isspace c = true
                   /\ is_upper c = false
                   /\ is_terminator c = false)
         (clean_text s).
Proof.
  apply Forall_forall. intros c Hc.
  destruct (clean_text_alphabet _ _ Hc) as [L|W].
  - rewrite L. repeat split.
    + now apply is_lower_not_upper.
    + unfold is_lower in L. apply between_spec in L. unfold is_terminator.
      destruct (N.eqb_spec c 46); [lia|].
      destruct (N.eqb_spec c 33); [lia|].
      destruct (N.eqb_spec c 63); [lia|]. reflexivity.
  - rewrite W, orb_true_r. repeat split.
    + now apply space_not_upper.
    + now apply terminator_not_space.
Qed.

(** X2. The strings that [clean_text] leaves unchanged are exactly the
    strings of lower-case ASCII letters and whitespace. *)
Theorem clean_text_fixed_points (s : pystr) :
  clean_text s = s <-> forallb (fun c => is_lower c || isspace c) s = true.
Proof.
  split.
  - intros E. apply forallb_forall. intros c Hc. rewrite <- E in Hc.
    destruct (clean_text_alphabet _ _ Hc) as [-> | ->];
      [reflexivity | apply orb_true_r].
  - intros H. induction s as [|c s IH]; [reflexivity|].
    simpl in H. apply andb_true_iff in H. destruct H as [Hc Hs].
    change (c :: s) with ([c] ++ s). rewrite clean_text_app, (IH Hs).
    destruct (plain_char_fixed _ Hc) as [K L].
    unfold clean_text, lower, re_sub_non_letters. simpl.
    now rewrite K; simpl; rewrite L.
Qed.

(** X3. [clean_text] works character by character: it distributes over
    concatenation, its result is never longer than its input, and it has
    the length of the input exactly when every character of the input is
    an ASCII letter or whitespace. *)
Theorem clean_text_characterwise (a b : pystr) :
  clean_text (a ++ b) = clean_text a ++ clean_text b
  /\ length (clean_text a) <= length a
  /\ (length (clean_text a) = length a <-> forallb kept a = true).
Proof.
  split; [apply clean_text_app|].
  unfold clean_text, lower, re_sub_non_letters. rewrite length_map.
  split; [apply filter_length_le|]. split.
  - apply filter_length_eq.
  - intros H. rewrite filter_all_true; [reflexivity|].
    now apply forallb_forall.
Qed.

Lemma lower_not_space c : is_lower c = true -> isspace c = false.
Proof.
  intros L. unfold is_lower in L. apply between_spec in L.
  destruct (isspace c) eqn:H; [|reflexivity]. unfold isspace in H.
  repeat (apply orb_true_iff in H; destruct H as [H|H]);
    try (apply between_spec in H; lia);
    apply N.eqb_eq in H; lia.
Qed.

Lemma upper_not_space c : is_upper c = true -> isspace c = false.
Proof.
  intros U. destruct (isspace c) eqn:H; [|reflexivity].
  rewrite (space_not_upper _ H) in U. discriminate.
Qed.

(** What [clean_text] does to the first character. *)
Lemma clean_text_cons c s :
  clean_text (c :: s) =
  if isspace c then c :: clean_text s
  else if is_ascii_letter c then lower_char c :: clean_text s
  else clean_text s.
Proof.
  change (c :: s) with ([c] ++ s). rewrite clean_text_app.
  unfold clean_text at 1, lower, re_sub_non_letters, kept. simpl.
  destruct (isspace c) eqn:W.
  - rewrite orb_true_r. simpl. unfold lower_char.
    now rewrite (space_not_upper _ W).
  - rewrite orb_false_r. now destruct (is_ascii_letter c).
Qed.

Lemma lower_char_not_space c :
  is_ascii_letter c = true -> isspace (lower_char c) = false.
Proof.
  intros L. apply lower_not_space. destruct (is_upper c) eqn:U.
  - now apply lower_char_is_lower.
  - unfold lower_char. rewrite U. unfold is_ascii_letter in L.
    now rewrite U, orb_false_r in L.
Qed.

Lemma clean_text_tokens s :
  Spec.count_tokens true (clean_text s) <= Spec.count_tokens true s
  /\ Spec.count_tokens true (clean_text s) <= 1 + Spec.count_tokens false s
  /\ Spec.count_tokens false (clean_text s) <= Spec.count_tokens false s.
Proof.
  induction s as [|c s (IH1 & IH2 & IH3)]; [simpl; lia|].
  rewrite clean_text_cons. destruct (isspace c) eqn:W.
  - simpl. rewrite W. lia.
  - destruct (is_ascii_letter c) eqn:L.
    + simpl. rewrite W, (lower_char_not_space _ L). lia.
    + simpl. rewrite W. lia.
Qed.

(** X4. [clean_text] keeps every whitespace character where it is, and the
    cleaned text, the one the sentiment estimator reads, never has more
    words than the raw text, the one whose words are counted. *)
Theorem clean_text_keeps_gaps (s : pystr) :
  filter isspace (clean_text s) = filter isspace s
  /\ length (split (clean_text s)) <= length (split s).
Proof.
  split.
  - induction s as [|c s IH]; [reflexivity|].
    rewrite clean_text_cons. destruct (isspace c) eqn:W.
    + simpl. now rewrite W, IH.
    + destruct (is_ascii_letter c) eqn:L; simpl; rewrite W, ?IH.
      * now rewrite (lower_char_not_space _ L).
      * reflexivity.
  - rewrite !split_word_count. apply clean_text_tokens.
Qed.

(** ** Words, sentences and the histogram *)

Lemma count_tokens_zero s :
  Spec.count_tokens true s = 0 <-> nonblank s = false.
Proof.
  induction s as [|c s IH]; simpl; [tauto|].
  destruct (isspace c); simpl; [exact IH|].
  split; [lia | discriminate].
Qed.

Lemma count_fragments_zero s :
  Spec.count_fragments true s = 0
  <-> forallb (fun c => isspace c || is_terminator c) s = true.
Proof.
  induction s as [|c s IH]; simpl; [tauto|].
  destruct (is_terminator c); simpl.
  - now rewrite orb_true_r.
  - rewrite orb_false_r. destruct (isspace c); simpl; [exact IH|].
    split; [lia | discriminate].
Qed.

Lemma forallb_isspace_nonblank s :
  forallb isspace s = true <-> nonblank s = false.
Proof.
  induction s as [|c s IH]; simpl; [tauto|].
  destruct (isspace c); simpl; [exact IH|]. split; discriminate.
Qed.

(** Whatever the tagger does, the two counts are those of the text. *)
Lemma details_counts tags text tr :
  exists d,
    analyze_text_details tags text tr
      = (Return d, tr ++ (if nonblank text then [TagsCall text] else []))
    /\ Details.word_count d = Spec.word_count text
    /\ Details.sentence_count d = Spec.sentence_count text.
Proof.
  destruct (nonblank text) eqn:B.
  - destruct (tags text) as [l|e] eqn:T.
    + eexists. split; [apply details_tagged; eassumption|]. simpl.
      now rewrite split_word_count, sentences_sentence_count.
    + eexists. split; [apply details_untagged with (e := e); assumption|].
      simpl. now rewrite split_word_count, sentences_sentence_count.
  - eexists. split; [rewrite app_nil_r; apply details_blank, B|]. simpl.
    destruct (blank_counts _ B) as [-> ->]. now split.
Qed.

(** X5. The word and sentence counts that [analyze_text_details] returns
    depend on the text alone: whether the tagger answers or raises, they
    are the number of whitespace-delimited tokens and the number of
    non-blank fragments between runs of [.], [!] and [?]; two taggers give
    the same counts. *)
Theorem counts_ignore_tagger tags1 tags2 (text : pystr) (tr1 tr2 : trace) :
  exists d1 d2 tr1' tr2',
    analyze_text_details tags1 text tr1 = (Return d1, tr1')
    /\ analyze_text_details tags2 text tr2 = (Return d2, tr2')
    /\ Details.word_count d1 = Spec.word_count text
    /\ Details.sentence_count d1 = Spec.sentence_count text
    /\ Details.word_count d1 = Details.word_count d2
    /\ Details.sentence_count d1 = Details.sentence_count d2.
Proof.
  destruct (details_counts tags1 text tr1) as (d1 & H1 & W1 & S1).
  destruct (details_counts tags2 text tr2) as (d2 & H2 & W2 & S2).
  exists d1, d2. do 2 eexists.
  split; [exact H1|]. split; [exact H2|].
  repeat split; congruence.
Qed.

(** X6. The word count is zero exactly on an empty or whitespace-only
    text. The sentence count is zero exactly on a text made of whitespace
    and terminators only, so a text such as ["?!"] has one word and no
    sentence. *)
Theorem zero_counts tags (text : pystr) (tr : trace) :
  exists d tr',
    analyze_text_details tags text tr = (Return d, tr')
    /\ (Details.word_count d = 0 <-> forallb isspace text = true)
    /\ (Details.sentence_count d = 0
        <-> forallb (fun c => isspace c || is_terminator c) text = true).
Proof.
  destruct (details_counts tags text tr) as (d & H & W & S).
  do 2 eexists. split; [exact H|]. rewrite W, S. split.
  - unfold Spec.word_count.
    now rewrite count_tokens_zero, forallb_isspace_nonblank.
  - apply count_fragments_zero.
Qed.

Lemma count_tokens_bound s :
  2 * Spec.count_tokens true s <= length s + 1
  /\ 2 * Spec.count_tokens false s <= length s.
Proof.
  induction s as [|c s [IH1 IH2]]; simpl; [lia|].
  destruct (isspace c); lia.
Qed.

Lemma count_fragments_bound s :
  2 * Spec.count_fragments true s <= length s + 1
  /\ 2 * Spec.count_fragments false s <= length s.
Proof.
  induction s as [|c s [IH1 IH2]]; simpl; [lia|].
  destruct (is_terminator c); [lia|]. destruct (isspace c); lia.
Qed.

(** X7. A text of [n] characters has at most [(n + 1) / 2] words and at
    most [(n + 1) / 2] sentences: two words need whitespace between them,
    two sentences a terminator. *)
Theorem counts_bounded tags (text : pystr) (tr : trace) :
  exists d tr',
    analyze_text_details tags text tr = (Return d, tr')
    /\ 2 * Details.word_count d <= length text + 1
    /\ 2 * Details.sentence_count d <= length text + 1.
Proof.
  destruct (details_counts tags text tr) as (d & H & W & S).
  do 2 eexists. split; [exact H|]. rewrite W, S. split.
  - apply count_tokens_bound.
  - apply count_fragments_bound.
Qed.

Lemma str_eqb_false a b : str_eqb a b = false <-> a <> b.
Proof.
  unfold str_eqb. destruct (list_eq_dec N.eq_dec a b); split;
    (congruence || discriminate || reflexivity).
Qed.

Lemma get_incr key c t :
  Chart.get (Counter.incr key c) t =
  Chart.get c t + (if str_eqb key t then 1 else 0).
Proof.
  induction c as [|[k n] c IH]; simpl.
  - destruct (str_eqb key t); reflexivity.
  - destruct (str_eqb k key) eqn:E; simpl.
    + apply str_eqb_eq in E. subst k.
      destruct (str_eqb key t); lia.
    + destruct (str_eqb k t) eqn:F; [|exact IH].
      apply str_eqb_eq in F. subst k. rewrite (str_eqb_sym key t), E. lia.
Qed.

Lemma get_fold keys c t :
  Chart.get (fold_left (fun c key => Counter.incr key c) keys c) t =
  Chart.get c t + count_occ (list_eq_dec N.eq_dec) keys t.
Proof.
  revert c. induction keys as [|k keys IH]; intros c; simpl; [lia|].
  rewrite IH, get_incr. unfold str_eqb.
  destruct (list_eq_dec N.eq_dec k t); lia.
Qed.

Lemma keys_incr key c :
  Chart.keys (Counter.incr key c) =
  if existsb (fun k => str_eqb k key) (Chart.keys c)
  then Chart.keys c else Chart.keys c ++ [key].
Proof.
  unfold Chart.keys.
  induction c as [|[k n] c IH]; simpl; [reflexivity|].
  destruct (str_eqb k key) eqn:E; simpl; [reflexivity|].
  rewrite IH. now destruct (existsb _ (map fst c)).
Qed.

(** A well-formed histogram: distinct keys, counts of at least one. *)
Lemma incr_shape key c :
  NoDup (Chart.keys c) /\ Forall (fun n => 1 <= n) (Chart.values c) ->
  NoDup (Chart.keys (Counter.incr key c))
  /\ Forall (fun n => 1 <= n) (Chart.values (Counter.incr key c))
  /\ Chart.total (Counter.incr key c) = S (Chart.total c).
Proof.
  intros [K V]. split; [|split].
  - rewrite keys_incr.
    destruct (existsb _ (Chart.keys c)) eqn:E; [exact K|].
    apply NoDup_app; [exact K | repeat constructor; intros [] | ].
    intros x Hx [<-|[]].
    assert (existsb (fun k => str_eqb k key) (Chart.keys c) = true);
      [|congruence].
    apply existsb_exists. exists key. split; [exact Hx | apply str_eqb_refl].
  - clear K. induction c as [|[k n] c IH]; simpl.
    + repeat constructor.
    + inversion V as [|? ? Hn Hc]; subst.
      destruct (str_eqb k key); simpl; constructor; auto.
  - clear K V. unfold Chart.total, Chart.values.
    induction c as [|[k n] c IH]; simpl; [reflexivity|].
    destruct (str_eqb k key); simpl; [lia|].
    rewrite IH. lia.
Qed.

Lemma of_list_shape keys :
  NoDup (Chart.keys (Counter.of_list keys))
  /\ Forall (fun n => 1 <= n) (Chart.values (Counter.of_list keys))
  /\ Chart.total (Counter.of_list keys) = length keys.
Proof.
  unfold Counter.of_list.
  assert (G : forall c,
    NoDup (Chart.keys c) /\ Forall (fun n => 1 <= n) (Chart.values c) ->
    let r := fold_left (fun c key => Counter.incr key c) keys c in
    NoDup (Chart.keys r) /\ Forall (fun n => 1 <= n) (Chart.values r)
    /\ Chart.total r = Chart.total c + length keys).
  { induction keys as [|k keys IH]; intros c Hc; simpl.
    - destruct Hc. repeat split; (assumption || lia).
    - destruct (@incr_shape k c Hc) as (K & V & T).
      destruct (IH (Counter.incr k c) (conj K V)) as (K' & V' & T').
      repeat split; try assumption. rewrite T', T. lia. }
  apply (G Counter.empty). split; constructor.
Qed.

(** X8. When the tagger answers on a non-blank text, the histogram that
    [analyze_text_details] returns records under every tag the number of
    tokens the tagger gave that tag, and nothing under a tag it did not
    give. *)
Theorem histogram_counts_tags tags (text : pystr) (tr : trace) l :
  nonblank text = true ->
  tags text = Return l ->
  exists d,
    analyze_text_details tags text tr = (Return d, tr ++ [TagsCall text])
    /\ (forall t,
          Chart.get (Details.pos_counts d) t
          = count_occ (list_eq_dec N.eq_dec) (map snd l) t)
    /\ (forall t,
          ~ In t (map snd l) -> Chart.get (Details.pos_counts d) t = 0).
Proof.
  intros B T. eexists. split; [apply details_tagged; eassumption|]. simpl.
  assert (G : forall t,
    Chart.get (Counter.of_list (map snd l)) t
    = count_occ (list_eq_dec N.eq_dec) (map snd l) t).
  { intros t. unfold Counter.of_list. now rewrite get_fold. }
  split; [exact G|].
  intros t Ht. rewrite G. now apply count_occ_not_In.
Qed.

Lemma histogram_counts_tags_witness :
  exists d,
    analyze_text_details Demo.tags (str "good days ahead") []
      = (Return d, [] ++ [TagsCall (str "good days ahead")])
    /\ (forall t,
          Chart.get (Details.pos_counts d) t
          = count_occ (list_eq_dec N.eq_dec)
              (map snd (map (fun w => (w, str "NN"))
                            (split (str "good days ahead")))) t)
    /\ (forall t,
          ~ In t (map snd (map (fun w => (w, str "NN"))
                               (split (str "good days ahead")))) ->
          Chart.get (Details.pos_counts d) t = 0).
Proof.
  apply (@histogram_counts_tags Demo.tags (str "good days ahead") []);
    reflexivity.
Defined.

(** X9. When the tagger answers on a non-blank text, the histogram has
    pairwise distinct keys and counts of at least one, its counts add up
    to the number of tagged tokens, and the two columns built from it for
    the chart have the same length. *)
Theorem histogram_shape tags (text : pystr) (tr : trace) l :
  nonblank text = true ->
  tags text = Return l ->
  exists d,
    analyze_text_details tags text tr = (Return d, tr ++ [TagsCall text])
    /\ NoDup (Chart.keys (Details.pos_counts d))
    /\ Forall (fun n => 1 <= n) (Chart.values (Details.pos_counts d))
    /\ Chart.total (Details.pos_counts d) = length l
    /\ length (Chart.keys (Details.pos_counts d))
       = length (Chart.values (Details.pos_counts d)).
Proof.
  intros B T. eexists. split; [apply details_tagged; eassumption|]. simpl.
  destruct (of_list_shape (map snd l)) as (K & V & S).
  rewrite length_map in S.
  repeat split; try assumption.
  unfold Chart.keys, Chart.values. now rewrite !length_map.
Qed.

Lemma histogram_shape_witness :
  exists d,
    analyze_text_details Demo.tags (str "good days ahead") []
      = (Return d, [] ++ [TagsCall (str "good days ahead")])
    /\ NoDup (Chart.keys (Details.pos_counts d))
    /\ Forall (fun n => 1 <= n) (Chart.values (Details.pos_counts d))
    /\ Chart.total (Details.pos_counts d)
       = length (map (fun w => (w, str "NN")) (split (str "good days ahead")))
    /\ length (Chart.keys (Details.pos_counts d))
       = length (Chart.values (Details.pos_counts d)).
Proof.
  apply (@histogram_shape Demo.tags (str "good days ahead") []);
    reflexivity.
Defined.

Lemma of_list_shown keys :
  Chart.shown (Counter.of_list keys) = true <-> keys <> [].
Proof.
  pose proof (of_list_shape keys) as (_ & _ & T).
  destruct keys as [|k keys]; simpl.
  - split; [discriminate | congruence].
  - split; [discriminate|]. intros _.
    destruct (Counter.of_list (k :: keys)); [discriminate T | reflexivity].
Qed.

(** X10. The histogram is non-empty, so that the chart of line 135 is
    drawn, exactly when the text is not blank and the tagger answered with
    at least one tagged token; a blank text, a failing tagger and a tagger
    that finds nothing all give the empty histogram. *)
Theorem chart_shown_iff_tagged tags (text : pystr) (tr : trace) :
  exists d tr',
    analyze_text_details tags text tr = (Return d, tr')
    /\ (Chart.shown (Details.pos_counts d) = true
        <-> nonblank text = true
            /\ exists l, tags text = Return l /\ l <> []).
Proof.
  destruct (nonblank text) eqn:B.
  - destruct (tags text) as [l|e] eqn:T.
    + do 2 eexists. split; [apply details_tagged; eassumption|]. simpl.
      rewrite of_list_shown. split.
      * intros H. split; [reflexivity|]. exists l. split; [reflexivity|].
        intros ->. now apply H.
      * intros (_ & l' & [= <-] & H). now destruct l.
    + do 2 eexists.
      split; [apply details_untagged with (e := e); assumption|]. simpl.
      split; [discriminate|]. intros (_ & l & [=] & _).
  - do 2 eexists. split; [apply details_blank, B|]. simpl.
    split; [discriminate|]. intros ([=] & _).
Qed.

(** ** The sentiment scorer *)

Lemma classify_float_Neutral p :
  classify (PyFloat p) = Neutral
  <-> (exists sg, p = S754_zero sg) \/ p = S754_nan.
Proof.
  destruct p as [s|s| |s m e].
  - split; [intros _; left; now exists s | reflexivity].
  - destruct s; (split; [discriminate | intros [[sg [=]]|[=]]]).
  - split; [intros _; now right | reflexivity].
  - destruct s; (split; [discriminate | intros [[sg [=]]|[=]]]).
Qed.

(** X11. When the estimator answers, [get_sentiment] makes that one call,
    hands back the two numbers unchanged, and the category is Neutral
    exactly when the polarity is a zero of either sign or NaN: a polarity
    of [-0.0] counts as neutral, and so does one that is not a number. *)
Theorem scored_sentiment sent (text : pystr) (tr : trace) p q :
  sent text = Return (p, q) ->
  exists r,
    get_sentiment sent text tr = (Return r, tr ++ [SentimentCall text])
    /\ Sentiment.polarity r = PyFloat p
    /\ Sentiment.subjectivity r = PyFloat q
    /\ (Sentiment.category r = Neutral
        <-> (exists sg, p = S754_zero sg) \/ p = S754_nan).
Proof.
  intros H. eexists. split; [apply get_sentiment_scored; exact H|]. simpl.
  repeat split; try reflexivity; apply classify_float_Neutral.
Qed.

Lemma scored_sentiment_witness :
  exists r,
    get_sentiment Demo.sentiment (str "bad day") []
      = (Return r, [] ++ [SentimentCall (str "bad day")])
    /\ Sentiment.polarity r = PyFloat Demo.float_minus_half
    /\ Sentiment.subjectivity r = PyFloat float_half
    /\ (Sentiment.category r = Neutral
        <-> (exists sg, Demo.float_minus_half = S754_zero sg)
            \/ Demo.float_minus_half = S754_nan).
Proof.
  apply (@scored_sentiment Demo.sentiment (str "bad day") []).
  reflexivity.
Defined.

(** ** Runs of [main] *)

(** A run on a non-empty input, spelled out. *)
Lemma main_run sent tags text_input s tr :
  truthy text_input = true ->
  exists r,
    Sentiment.category r = classify (Sentiment.polarity r)
    /\ (forall p q, sent (clean_text text_input) = Return (p, q) ->
        Sentiment.polarity r = PyFloat p)
    /\ (forall e, sent (clean_text text_input) = Raise e ->
        Sentiment.polarity r = PyInt 0)
    /\ main sent tags text_input s tr
       = (Return {| history :=
                      Some (append (snapshot s)
                              (Entry.mk (preview text_input)
                                 (Sentiment.category r)
                                 (Sentiment.polarity r))) |},
          (tr ++ [SentimentCall (clean_text text_input)])
          ++ (if nonblank text_input then [TagsCall text_input] else [])).
Proof.
  intros T.
  destruct (analyze_returns sent tags text_input tr)
    as (r & d & _ & Hc & Hp & Hf & _ & Ha).
  exists r. repeat (split; [assumption|]).
  unfold main, bind. rewrite T, Ha. destruct s as [[h|]]; reflexivity.
Qed.

Lemma main_empty sent tags s tr : main sent tags [] s tr = (Return s, tr).
Proof. reflexivity. Qed.

Lemma append_grows h e :
  exists l, append h e = h ++ l /\ length l <= 1.
Proof.
  unfold append. destruct (contains h e); simpl.
  - exists []. rewrite app_nil_r. split; [reflexivity | simpl; lia].
  - exists [e]. split; [reflexivity | simpl; lia].
Qed.

Lemma append_present h e : contains h e = true -> append h e = h.
Proof. unfold append. now intros ->. Qed.

Lemma contains_append h e :
  is_nan (Entry.polarity e) = false -> contains (append h e) e = true.
Proof.
  intros N. unfold append. destruct (contains h e) eqn:C; simpl; [exact C|].
  unfold contains. rewrite existsb_app. simpl.
  rewrite (entry_eqb_refl _ N). now rewrite orb_true_r.
Qed.

Lemma append_nonempty h e : append h e <> [].
Proof.
  unfold append. destruct (contains h e) eqn:C; simpl.
  - destruct h; [discriminate C | discriminate].
  - now destruct h.
Qed.

(** A run that returns has added at most one entry, at the end. *)
Lemma run_grows sent tags text_input s tr s' tr' :
  main sent tags text_input s tr = (Return s', tr') ->
  exists l, snapshot s' = snapshot s ++ l /\ length l <= 1.
Proof.
  intros H.
  destruct (main_returns sent tags text_input s tr)
    as (s1 & tr1 & Hm & [Hs|[e Hs]]);
    rewrite H in Hm; injection Hm as <- <-; rewrite Hs.
  - exists []. rewrite app_nil_r. split; [reflexivity | simpl; lia].
  - apply append_grows.
Qed.

(** X12. One run of [main] returns and only ever adds to the end of the
    history: the new history is the old one followed by at most one
    entry. On an empty input the session is returned as it was and no
    toolkit call is made. *)
Theorem run_appends_at_most_one sent tags (text_input : pystr)
    (s : session_state) (tr : trace) :
  exists s' tr' l,
    main sent tags text_input s tr = (Return s', tr')
    /\ snapshot s' = snapshot s ++ l
    /\ length l <= 1
    /\ (text_input = [] -> s' = s /\ tr' = tr).
Proof.
  destruct text_input as [|c t].
  - exists s, tr, []. rewrite app_nil_r.
    split; [reflexivity|]. split; [reflexivity|].
    split; [simpl; lia|]. intros _. now split.
  - destruct (@main_run sent tags (c :: t) s tr eq_refl)
      as (r & _ & _ & _ & Hm).
    destruct (append_grows (snapshot s)
                (Entry.mk (preview (c :: t)) (Sentiment.category r)
                          (Sentiment.polarity r))) as (l & Hl & Hn).
    do 2 eexists. exists l. split; [exact Hm|].
    split; [exact Hl|]. split; [exact Hn|]. discriminate.
Qed.

Lemma evolves_prefix s s' :
  evolves s s' -> exists l, snapshot s' = snapshot s ++ l.
Proof.
  induction 1 as [|sent tags text s' tr s'' tr' _ [l IH] Hrun].
  - exists []. now rewrite app_nil_r.
  - destruct (run_grows _ _ _ _ _ Hrun) as (l1 & Hs & _).
    exists (l ++ l1). now rewrite Hs, IH, app_assoc.
Qed.

(** X13. An entry that is in the history stays at its position for the
    rest of the session: after any number of further runs, on any inputs
    and whatever the toolkit answers, the former history is a prefix of
    the new one. Nothing is removed, replaced or reordered. *)
Theorem history_is_append_only (s s' : session_state) :
  evolves s s' ->
  (exists l, snapshot s' = snapshot s ++ l)
  /\ (forall i a, nth_error (snapshot s) i = Some a ->
                  nth_error (snapshot s') i = Some a)
  /\ length (snapshot s) <= length (snapshot s').
Proof.
  intros E. destruct (evolves_prefix E) as [l Hl].
  split; [now exists l|]. rewrite Hl. split.
  - intros i a Ha. rewrite nth_error_app1; [exact Ha|].
    apply nth_error_Some. congruence.
  - rewrite length_app. lia.
Qed.

Lemma history_is_append_only_witness :
  (exists l,
     snapshot {| history := Some [Demo.good; Demo.bad] |}
     = snapshot {| history := Some [Demo.good] |} ++ l)
  /\ (forall i a,
        nth_error (snapshot {| history := Some [Demo.good] |}) i = Some a ->
        nth_error (snapshot {| history := Some [Demo.good; Demo.bad] |}) i
        = Some a)
  /\ length (snapshot {| history := Some [Demo.good] |})
     <= length (snapshot {| history := Some [Demo.good; Demo.bad] |}).
Proof.
  apply history_is_append_only.
  apply (@evolves_run {| history := Some [Demo.good] |}
           Demo.sentiment Demo.tags (str "bad day")
           {| history := Some [Demo.good] |} []
           {| history := Some [Demo.good; Demo.bad] |}
           [SentimentCall (str "bad day"); TagsCall (str "bad day")]).
  - apply evolves_here.
  - reflexivity.
Defined.

(** The entry of a run, read off the answer of the estimator. *)
Lemma main_entry sent tags text_input s tr :
  truthy text_input = true ->
  let polarity :=
    match sent (clean_text text_input) with
    | Return (p, _) => PyFloat p
    | Raise _ => PyInt 0
    end in
  main sent tags text_input s tr
  = (Return {| history :=
                 Some (append (snapshot s)
                         (Entry.mk (preview text_input) (classify polarity)
                                   polarity)) |},
     (tr ++ [SentimentCall (clean_text text_input)])
     ++ (if nonblank text_input then [TagsCall text_input] else [])).
Proof.
  intros T.
  destruct (@main_run sent tags text_input s tr T) as (r & Hc & Hp & Hf & Hm).
  simpl. rewrite Hm, Hc.
  destruct (sent (clean_text text_input)) as [[p q]|e].
  - now rewrite (Hp p q eq_refl).
  - now rewrite (Hf e eq_refl).
Qed.

Lemma SFeqb_true f g :
  SFeqb f g = true ->
  (f = g /\ f <> S754_nan)
  \/ (exists a b, f = S754_zero a /\ g = S754_zero b).
Proof.
  unfold SFeqb.
  destruct f as [a|a| |a m e], g as [b|b| |b n e']; simpl;
    try discriminate;
    try (destruct a; discriminate); try (destruct b; discriminate).
  - intros _. right. now exists a, b.
  - destruct a, b; try discriminate; intros _; left;
      (split; [reflexivity | discriminate]).
  - destruct a, b; try discriminate;
      destruct (e ?= e')%Z eqn:E; try discriminate;
      destruct (Pos.compare_cont Eq m n) eqn:C; try discriminate;
      intros _; apply Z.compare_eq in E;
      change (Pos.compare m n = Eq) in C; apply Pos.compare_eq in C;
      subst; left; (split; [reflexivity | discriminate]).
Qed.

Lemma SFeqb_zero h a b :
  SFeqb h (S754_zero a) = true -> SFeqb h (S754_zero b) = true.
Proof.
  destruct h as [s|s| |s m e]; simpl; try discriminate; try reflexivity;
    destruct s; discriminate.
Qed.

Lemma pynum_eqb_float_trans x f g :
  PyNum.eqb x (PyFloat f) = true -> SFeqb f g = true ->
  PyNum.eqb x (PyFloat g) = true.
Proof.
  intros H E. destruct (SFeqb_true _ _ E) as [[<- _]|(a & b & -> & ->)];
    [exact H|].
  destruct x as [z|h]; simpl in *; [exact H|].
  now apply SFeqb_zero with (a := a).
Qed.

Lemma SFeqb_classify f g :
  SFeqb f g = true -> classify (PyFloat f) = classify (PyFloat g).
Proof.
  intros E. destruct (SFeqb_true _ _ E) as [[<- _]|(a & b & -> & ->)];
    reflexivity.
Qed.

Lemma eq0_float_zero x sg :
  PyNum.eqb x (PyInt 0) = true -> PyNum.eqb x (PyFloat (S754_zero sg)) = true.
Proof.
  destruct x as [z|f]; simpl.
  - intros H. apply Z.eqb_eq in H. now subst.
  - destruct f as [s|s| |s m e]; try discriminate; [reflexivity|].
    now rewrite finite_neq_int0.
Qed.

(** An entry found in a history is still found when looked up through an
    entry that every entry of the history cannot tell from it. *)
Lemma contains_alike h e e' :
  (forall x, Entry.eqb x e = true -> Entry.eqb x e' = true) ->
  contains h e = true -> contains h e' = true.
Proof.
  intros A C. unfold contains in *. apply existsb_exists in C.
  destruct C as (x & Hx & Ex). apply existsb_exists.
  exists x. split; [exact Hx | now apply A].
Qed.

(** X14. After a run on a non-empty input whose polarity is a number, the
    history holds an entry for it, and running [main] again on the same
    input with the same toolkit leaves the session exactly as it is:
    re-submitting a text never duplicates its entry. *)
Theorem rerun_changes_nothing sent tags (text_input : pystr)
    (s : session_state) (tr : trace) :
  truthy text_input = true ->
  (forall q, sent (clean_text text_input) <> Return (S754_nan, q)) ->
  exists s1 tr1 tr2 e,
    main sent tags text_input s tr = (Return s1, tr1)
    /\ Entry.text e = preview text_input
    /\ contains (snapshot s1) e = true
    /\ main sent tags text_input s1 tr1 = (Return s1, tr2).
Proof.
  intros T Hnan.
  pose proof (@main_entry sent tags text_input s tr T) as H1. simpl in H1.
  set (pol := match sent (clean_text text_input) with
              | Return (p, _) => PyFloat p
              | Raise _ => PyInt 0
              end) in *.
  set (e := Entry.mk (preview text_input) (classify pol) pol) in *.
  assert (N : is_nan (Entry.polarity e) = false).
  { subst e pol. simpl.
    destruct (sent (clean_text text_input)) as [[p q]|x]; [|reflexivity].
    destruct p; try reflexivity. now elim (Hnan q). }
  pose proof (contains_append (snapshot s) e N) as C.
  do 3 eexists. exists e. split; [exact H1|]. split; [reflexivity|].
  split; [exact C|].
  rewrite (@main_entry sent tags text_input _ _ T). simpl. fold pol. fold e.
  change (snapshot {| history := Some (append (snapshot s) e) |})
    with (append (snapshot s) e).
  now rewrite (append_present _ _ C).
Qed.

Lemma rerun_changes_nothing_witness :
  exists s1 tr1 tr2 e,
    main Demo.sentiment Demo.tags (str "good day") session_start []
      = (Return s1, tr1)
    /\ Entry.text e = preview (str "good day")
    /\ contains (snapshot s1) e = true
    /\ main Demo.sentiment Demo.tags (str "good day") s1 tr1
       = (Return s1, tr2).
Proof.
  apply rerun_changes_nothing.
  - reflexivity.
  - intros q. vm_compute. discriminate.
Defined.

(** X15. A failed estimation leaves the same mark in the history as a
    neutral one: the fallback entry (polarity the integer [0]) is [==] to
    the entry of an answer of polarity [0.0] or [-0.0] for the same text,
    so once the failed run is recorded, a later run of the same text on
    which the estimator answers zero adds nothing. *)
Theorem failure_looks_neutral sentA tagsA sentB tagsB (text_input : pystr)
    (s : session_state) (tr : trace) e sg q :
  truthy text_input = true ->
  sentA (clean_text text_input) = Raise e ->
  sentB (clean_text text_input) = Return (S754_zero sg, q) ->
  Entry.eqb (Entry.mk (preview text_input) Neutral (PyInt 0))
            (Entry.mk (preview text_input) Neutral (PyFloat (S754_zero sg)))
    = true
  /\ exists s1 tr1 tr2,
       main sentA tagsA text_input s tr = (Return s1, tr1)
       /\ snapshot s1
          = append (snapshot s)
              (Entry.mk (preview text_input) Neutral (PyInt 0))
       /\ main sentB tagsB text_input s1 tr1 = (Return s1, tr2).
Proof.
  intros T HA HB. split.
  { unfold Entry.eqb. simpl. now rewrite str_eqb_refl. }
  pose proof (@main_entry sentA tagsA text_input s tr T) as H1. simpl in H1.
  rewrite HA in H1. change (classify (PyInt 0)) with Neutral in H1.
  do 3 eexists. split; [exact H1|]. split; [reflexivity|].
  rewrite (@main_entry sentB tagsB text_input _ _ T). simpl. rewrite HB.
  change (classify (PyFloat (S754_zero sg))) with Neutral.
  match goal with
  | |- context [snapshot {| history := Some ?h |}] =>
      change (snapshot {| history := Some h |}) with h
  end.
  rewrite append_present; [reflexivity|].
  apply contains_alike
    with (e := Entry.mk (preview text_input) Neutral (PyInt 0)).
  - intros x. unfold Entry.eqb. simpl. rewrite !andb_true_iff.
    intros [[Ht Hc] Hp]. repeat split; try assumption.
    now apply eq0_float_zero.
  - now apply contains_append.
Qed.

Lemma failure_looks_neutral_witness :
  Entry.eqb (Entry.mk (preview (str "so so")) Neutral (PyInt 0))
            (Entry.mk (preview (str "so so")) Neutral
                      (PyFloat (S754_zero false)))
    = true
  /\ exists s1 tr1 tr2,
       main Sample.broken Demo.tags (str "so so") session_start []
         = (Return s1, tr1)
       /\ snapshot s1
          = append (snapshot session_start)
              (Entry.mk (preview (str "so so")) Neutral (PyInt 0))
       /\ main Sample.calm Demo.tags (str "so so") s1 tr1 = (Return s1, tr2).
Proof.
  apply (@failure_looks_neutral Sample.broken Demo.tags Sample.calm Demo.tags
           (str "so so") session_start []
           {| exc_name := "MissingCorpusError" |} false float_zero);
    reflexivity.
Defined.

Lemma preview_length text : length (preview text) <= 53.
Proof.
  destruct (Nat.lt_ge_cases 50 (length text)) as [L|G].
  - destruct (preview_long _ L) as [_ ->]. lia.
  - rewrite (preview_short _ G). lia.
Qed.

Lemma Forall_append (P : Entry.t -> Prop) h e :
  Forall P h -> P e -> Forall P (append h e).
Proof.
  intros H He. unfold append. destruct (contains h e); simpl; [exact H|].
  apply Forall_app. split; [exact H | now constructor].
Qed.

(** What a run can do to a session: nothing, or append the entry of its
    input. *)
Lemma run_cases sent tags text_input s tr s' tr' :
  main sent tags text_input s tr = (Return s', tr') ->
  s' = s
  \/ exists polarity,
       history s'
       = Some (append (snapshot s)
                 (Entry.mk (preview text_input) (classify polarity)
                           polarity)).
Proof.
  intros H. destruct text_input as [|c t].
  - left. rewrite main_empty in H. congruence.
  - right. rewrite (@main_entry sent tags (c :: t) s tr eq_refl) in H.
    injection H as <- _. eexists. reflexivity.
Qed.

(** X16. Every entry of every history that runs of [main] can produce has
    a text of at most 53 characters and a sentiment that is the class of
    its polarity. *)
Theorem history_entries_well_formed (s : session_state) :
  reachable s ->
  Forall (fun e => length (Entry.text e) <= 53
                   /\ Entry.sentiment e = classify (Entry.polarity e))
         (snapshot s).
Proof.
  induction 1 as [|sent tags text s tr s' tr' _ IH Hrun].
  - constructor.
  - destruct (run_cases _ _ _ _ _ Hrun) as [->|[pol Hs]]; [exact IH|].
    unfold snapshot at 1. rewrite Hs. apply Forall_append; [exact IH|].
    simpl. split; [apply preview_length | reflexivity].
Qed.

Lemma history_entries_well_formed_witness :
  Forall (fun e => length (Entry.text e) <= 53
                   /\ Entry.sentiment e = classify (Entry.polarity e))
         (snapshot {| history := Some [Demo.good] |}).
Proof.
  apply history_entries_well_formed.
  apply (@reachable_run Demo.sentiment Demo.tags (str "good day")
           session_start [] {| history := Some [Demo.good] |}
           [SentimentCall (str "good day"); TagsCall (str "good day")]).
  - apply reachable_start.
  - reflexivity.
Defined.

(** X17. The key ['history'] of the session state is never bound to an
    empty list: it is absent until the first analysis, and from then on
    the list holds an entry. *)
Theorem history_never_empty (s : session_state) :
  reachable s ->
  history s = None \/ exists e h, history s = Some (e :: h).
Proof.
  induction 1 as [|sent tags text s tr s' tr' _ IH Hrun].
  - now left.
  - destruct (run_cases _ _ _ _ _ Hrun) as [->|[pol Hs]]; [exact IH|].
    right. rewrite Hs.
    destruct (append (snapshot s) _) as [|e h] eqn:A.
    + now apply append_nonempty in A.
    + now exists e, h.
Qed.

Lemma history_never_empty_witness :
  history {| history := Some [Demo.good] |} = None
  \/ exists e h, history {| history := Some [Demo.good] |} = Some (e :: h).
Proof.
  apply history_never_empty.
  apply (@reachable_run Demo.sentiment Demo.tags (str "good day")
           session_start [] {| history := Some [Demo.good] |}
           [SentimentCall (str "good day"); TagsCall (str "good day")]).
  - apply reachable_start.
  - reflexivity.
Defined.

(** X18. The toolkit calls of one run of [main]: none on an empty input;
    otherwise first the estimator, on the cleaned text, then the tagger,
    on the raw text, unless the text is blank. The estimator is never
    given the raw text and the tagger never the cleaned one. *)
Theorem run_calls sent tags (text_input : pystr) (s : session_state)
    (tr : trace) :
  exists s',
    main sent tags text_input s tr
    = (Return s',
       tr ++ (if truthy text_input
              then SentimentCall (clean_text text_input)
                   :: (if nonblank text_input
                       then [TagsCall text_input] else [])
              else [])).
Proof.
  destruct (truthy text_input) eqn:T.
  - eexists. rewrite (@main_entry sent tags text_input s tr T).
    now rewrite <- app_assoc.
  - destruct text_input; [|discriminate T].
    exists s. now rewrite main_empty, app_nil_r.
Qed.

(** X19. The history keeps the first 50 characters of a text only: two
    texts of more than 50 characters that agree on their first 50 and on
    which the estimator gives [==] polarities are one entry. After a run
    on the first, a run on the second leaves the session as it is. *)
Theorem long_texts_share_an_entry sent tags (t1 t2 : pystr)
    (s : session_state) (tr : trace) p1 q1 p2 q2 :
  50 < length t1 ->
  50 < length t2 ->
  firstn 50 t1 = firstn 50 t2 ->
  sent (clean_text t1) = Return (p1, q1) ->
  sent (clean_text t2) = Return (p2, q2) ->
  SFeqb p1 p2 = true ->
  exists s1 tr1 tr2,
    main sent tags t1 s tr = (Return s1, tr1)
    /\ main sent tags t2 s1 tr1 = (Return s1, tr2).
Proof.
  intros L1 L2 F H1 H2 E.
  assert (T1 : truthy t1 = true) by (destruct t1; [simpl in L1; lia | easy]).
  assert (T2 : truthy t2 = true) by (destruct t2; [simpl in L2; lia | easy]).
  pose proof (@main_entry sent tags t1 s tr T1) as R1. simpl in R1.
  rewrite H1 in R1.
  do 3 eexists. split; [exact R1|].
  rewrite (@main_entry sent tags t2 _ _ T2). simpl. rewrite H2.
  match goal with
  | |- context [snapshot {| history := Some ?h |}] =>
      change (snapshot {| history := Some h |}) with h
  end.
  assert (P : preview t2 = preview t1).
  { destruct (preview_long _ L1) as [-> _].
    destruct (preview_long _ L2) as [-> _]. now rewrite F. }
  rewrite P, <- (SFeqb_classify _ _ E).
  rewrite append_present; [reflexivity|].
  apply contains_alike
    with (e := Entry.mk (preview t1) (classify (PyFloat p1)) (PyFloat p1)).
  - intros x. unfold Entry.eqb. simpl. rewrite !andb_true_iff.
    intros [[Ht Hc] Hp]. repeat split; try assumption.
    now apply pynum_eqb_float_trans with (f := p1).
  - apply contains_append. simpl.
    destruct (SFeqb_true _ _ E) as [[_ N]|(a & b & -> & _)];
      [|reflexivity].
    destruct p1; try reflexivity. now elim N.
Qed.

Lemma long_texts_share_an_entry_witness :
  exists s1 tr1 tr2,
    main Demo.sentiment Demo.tags Sample.long_a session_start []
      = (Return s1, tr1)
    /\ main Demo.sentiment Demo.tags Sample.long_b s1 tr1 = (Return s1, tr2).
Proof.
  apply (@long_texts_share_an_entry Demo.sentiment Demo.tags
           Sample.long_a Sample.long_b session_start []
           float_half float_half float_half float_half).
  - vm_compute. lia.
  - vm_compute. lia.
  - reflexivity.
  - reflexivity.
  - reflexivity.
  - reflexivity.
Defined.

(** ** The download at startup *)

